(** * hydrogen-bundles: bundle resolution, pricing, inventory and cart lines

    A shallow embedding of the SDK layer of [@tempered/hydrogen-bundles]
    ([sdk/buildCartMutation.ts], [sdk/checkInventory.ts],
    [sdk/calculatePrice.ts], [sdk/resolveBundle.ts], [utils/validation.ts],
    [utils/constants.ts], [types.ts]) together with the properties the
    specification states about it.

    Conventions of the embedding.
    - A TypeScript [number] that carries a count (quantities, selection
      bounds, stock levels, array indices) is a [Z]; a [number] that carries
      a price, a discount or a percentage is an exact rational [Qc].  IEEE
      rounding, [NaN] and the infinities are outside the model; the one
      [Infinity] the code writes down itself (the start value of the running
      minimum in the inventory check) is [None] in an [option Z].
    - An optional field [f?: T] is an [option T]; [undefined] is [None].
    - A thrown [TypeError] (reading [.id] of [undefined]) is [None] in the
      result of the function that throws.
    - A JavaScript [Map] with string keys is a [gmap string _].
    - [Record<string, string>] is the list of its [Object.entries].

    The calls around that layer ([addBundleToCart], [resolveBundle],
    [calculateBundlePrice], with [utils/errors.ts], [utils/cache.ts] and
    the [useBundleLines] hook) are embedded with these further conventions.
    - What a function throws and a [catch] clause receives is the left
      summand of a sum, [Thrown + T].
    - The network is a parameter: [fetch] is a function from the request to
      what awaiting the answer and its [json()] comes to, and the hosted
      backend is a function to the value it reports or throws.
    - The module-level [memoryCache] is passed in and handed back, and each
      reading of [Date.now()] is an explicit argument. *)

From Stdlib Require Import Ascii QArith Qcanon Qround.
From stdpp Require Import base option list strings gmap pretty numbers.
From stdpp Require sorting.

Local Open Scope string_scope.
Local Open Scope Z_scope.
Local Open Scope list_scope.

(** ** JavaScript built-ins used by the SDK *)

Module Js.

(** [String(n)] for an integral number (below the magnitude 10^21, from
    which JavaScript prints an exponent). *)
Definition String (n : Z) : string := pretty n.

(** [Math.max(a, b)]. *)
Definition Math_max (a b : Qc) : Qc := if decide (a ≤ b)%Qc then b else a.

(** [Math.round(x)]: the integer nearest to [x], ties towards +∞. *)
Definition Math_round (x : Qc) : Qc :=
  Qc_of_Z (Qfloor (x + Q2Qc (1 # 2))%Qc).


Definition digit2 (n : Z) : string :=
  pretty (n `div` 10) +:+ pretty (n `mod` 10).

(** [x.toFixed(2)]: the sign is split off, the magnitude is scaled by 100
    and rounded to the nearest integer [n] (the larger one on a tie), and
    [n] is printed with the point before its last two digits (for a
    magnitude below 10^21; JavaScript prints an exponent from there). *)
Definition toFixed2 (x : Qc) : string :=
  let neg := bool_decide (x < 0)%Qc in
  let ax : Qc := if neg then (- x)%Qc else x in
  let n := Qfloor (ax * Qc_of_Z 100 + Q2Qc (1 # 2))%Qc in
  (if neg then "-" else "") +:+ pretty (n `div` 100) +:+ "." +:+ digit2 (n `mod` 100).

End Js.

(** ** utils/constants.ts *)

Module BUNDLE_ATTRIBUTES.
Definition bundleParent : string := "_bundle_parent".
Definition bundleComponentOf : string := "_bundle_component_of".
Definition bundleProductId : string := "_bundle_product_id".
Definition componentIndex : string := "_bundle_component_index".
Definition componentProductId : string := "_bundle_component_product_id".
Definition totalComponents : string := "_bundle_total_components".
End BUNDLE_ATTRIBUTES.

(** ** types.ts *)

Inductive BundleType := fixed | mix_and_match.

Inductive BundleDiscountType := percentage | fixed_amount | fixed_price | custom.

Inductive AvailabilityStatus := available | limited | out_of_stock | preorder.

#[global] Instance BundleType_eq_dec : EqDecision BundleType.
Proof. solve_decision. Defined.
#[global] Instance BundleDiscountType_eq_dec : EqDecision BundleDiscountType.
Proof. solve_decision. Defined.
#[global] Instance AvailabilityStatus_eq_dec : EqDecision AvailabilityStatus.
Proof. solve_decision. Defined.

Module Money.
Record t := mk { amount : string; currencyCode : string }.
End Money.

Module ProductImage.
Record t := mk {
  url : string;
  altText : option string;
  width : option Z;
  height : option Z }.
End ProductImage.

Module SelectedOption.
Record t := mk { name : string; value : string }.
End SelectedOption.

Module BundleComponentVariant.
Record t := mk {
  id : string;
  title : string;
  price : Money.t;
  compareAtPrice : option Money.t;
  sku : option string;
  availableForSale : bool;
  quantityAvailable : option Z;
  image : option ProductImage.t;
  selectedOptions : option (list SelectedOption.t) }.
End BundleComponentVariant.

Module BundleComponent.
Record t := mk {
  productId : string;
  productTitle : string;
  productHandle : string;
  productImage : option ProductImage.t;
  variants : list BundleComponentVariant.t;
  defaultVariantId : option string;
  quantity : Z;
  allowQuantitySelection : option bool;
  minQuantity : option Z;
  maxQuantity : option Z;
  required : option bool;
  priceOverride : option Money.t }.
End BundleComponent.

Module BundlePricing.
Record t := mk {
  discountType : BundleDiscountType;
  discountValue : option Qc;
  currencyCode : option string;
  originalPrice : option Money.t;
  bundlePrice : option Money.t;
  savings : option Money.t;
  savingsPercentage : option Qc }.
End BundlePricing.

Module BundleDefinition.
Record t := mk {
  id : string;
  title : string;
  handle : string;
  description : option string;
  bundleType : BundleType;
  components : list BundleComponent.t;
  pricing : BundlePricing.t;
  minSelections : option Z;
  maxSelections : option Z;
  featuredImage : option ProductImage.t;
  availableForSale : bool;
  variantId : option string }.
End BundleDefinition.

Module BundleSelection.
Record t := mk { productId : string; variantId : string; quantity : Z }.
End BundleSelection.

Module ComponentInventory.
Record t := mk {
  productId : string;
  variantId : string;
  status : AvailabilityStatus;
  quantityAvailable : option Z;
  maxAddable : option Z }.
End ComponentInventory.

Module BundleInventory.
Record t := mk {
  available : bool;
  status : AvailabilityStatus;
  maxQuantity : Z;
  limitingComponent : option ComponentInventory.t;
  components : list ComponentInventory.t;
  cachedAt : option string }.
End BundleInventory.

Module ComponentPrice.
Record t := mk {
  productId : string;
  variantId : string;
  quantity : Z;
  unitPrice : Money.t;
  lineTotal : Money.t }.
End ComponentPrice.

Module BundlePriceResult.
Record t := mk {
  originalPrice : Money.t;
  bundlePrice : Money.t;
  savings : Money.t;
  savingsPercentage : Qc;
  componentPrices : list ComponentPrice.t }.
End BundlePriceResult.

Module BundleLineAttributes.
Record t := mk {
  _bundleParent : option string;
  _bundleComponentOf : option string;
  _bundleProductId : option string;
  _bundleComponentIndex : option string }.
End BundleLineAttributes.

Module AddBundleInput.
Record t := mk {
  bundleId : string;
  selectedComponents : option (list BundleSelection.t);
  quantity : option Z;
  cartId : option string;
  customAttributes : option (list (string * string)) }.
End AddBundleInput.

(** The anonymous [{ key: string; value: string }] of a cart line. *)
Module Attribute.
Record t := mk { key : string; value : string }.
End Attribute.

(** The line input built for the cart mutations. *)
Module CartLineInput.
Record t := mk {
  merchandiseId : string;
  quantity : Z;
  attributes : list Attribute.t }.
End CartLineInput.

(** A line of the cart as the Storefront API returns it. *)
Module CartLine.
Record t := mk {
  id : string;
  quantity : Z;
  attributes : list Attribute.t;
  merchandiseId : string;
  merchandiseTitle : string;
  productTitle : string }.
End CartLine.

(** The tag codec reads nothing of a line but its [attributes]; the
    structural parameter type [{ attributes: ... }] becomes a class. *)
Class HasAttributes (L : Type) := attributesOf : L → list Attribute.t.
#[global] Instance CartLineInput_attributes : HasAttributes CartLineInput.t :=
  CartLineInput.attributes.
#[global] Instance CartLine_attributes : HasAttributes CartLine.t :=
  CartLine.attributes.

(** ** sdk/buildCartMutation.ts *)

Module BuildCartMutation.

Definition buildBundleAttributes (bundleId : string)
    (componentIndex totalComponents : nat) (componentProductId : string)
    : list Attribute.t :=
  [ Attribute.mk BUNDLE_ATTRIBUTES.bundleParent "true";
    Attribute.mk BUNDLE_ATTRIBUTES.bundleProductId bundleId;
    Attribute.mk BUNDLE_ATTRIBUTES.componentIndex (Js.String (Z.of_nat componentIndex));
    Attribute.mk BUNDLE_ATTRIBUTES.totalComponents (Js.String (Z.of_nat totalComponents));
    Attribute.mk BUNDLE_ATTRIBUTES.componentProductId componentProductId ].

(** [c.defaultVariantId ?? c.variants[0]!.id]; [None] is the [TypeError]
    of reading [.id] when there is neither a default nor a first variant. *)
Definition defaultVariantIdOf (c : BundleComponent.t) : option string :=
  match BundleComponent.defaultVariantId c with
  | Some v => Some v
  | None => BundleComponentVariant.id <$> head (BundleComponent.variants c)
  end.

(** The [componentsToAdd] of [buildBundleCartLines] (and the
    [variantsToCheck] of the inventory check, which is the same code). *)
Definition componentsToAdd (definition : BundleDefinition.t)
    (selectedComponents : option (list BundleSelection.t))
    : option (list BundleSelection.t) :=
  match selectedComponents with
  | Some (s :: rest) =>
      Some ((λ s, BundleSelection.mk (BundleSelection.productId s)
                    (BundleSelection.variantId s)
                    (BundleSelection.quantity s)) <$> (s :: rest))
  | _ =>
      mapM (λ c, variantId ← defaultVariantIdOf c;
                 Some (BundleSelection.mk (BundleComponent.productId c)
                         variantId (BundleComponent.quantity c)))
           (BundleDefinition.components definition)
  end.

(** [Object.entries(input.customAttributes)] as pushed on every line. *)
Definition customAttributesOf (input : AddBundleInput.t) : list Attribute.t :=
  match AddBundleInput.customAttributes input with
  | Some entries => (λ kv, Attribute.mk kv.1 kv.2) <$> entries
  | None => []
  end.

Definition buildBundleCartLines (definition : BundleDefinition.t)
    (input : AddBundleInput.t) : option (list CartLineInput.t) :=
  let quantity := default 1 (AddBundleInput.quantity input) in
  componentsToAdd ← componentsToAdd definition (AddBundleInput.selectedComponents input);
  let totalComponents := length componentsToAdd in
  Some (imap (λ index component,
          CartLineInput.mk
            (BundleSelection.variantId component)
            (BundleSelection.quantity component * quantity)
            (buildBundleAttributes (BundleDefinition.id definition) index
               totalComponents (BundleSelection.productId component)
             ++ customAttributesOf input))
        componentsToAdd).

Definition isBundleLine `{HasAttributes L} (line : L) : bool :=
  existsb (λ attr,
      bool_decide (Attribute.key attr = BUNDLE_ATTRIBUTES.bundleParent)
      && bool_decide (Attribute.value attr = "true"))
    (attributesOf line).

Definition getBundleInfoStep (attrs : BundleLineAttributes.t)
    (attr : Attribute.t) : BundleLineAttributes.t :=
  if bool_decide (Attribute.key attr = BUNDLE_ATTRIBUTES.bundleParent) then
    BundleLineAttributes.mk (Some (Attribute.value attr))
      (BundleLineAttributes._bundleComponentOf attrs)
      (BundleLineAttributes._bundleProductId attrs)
      (BundleLineAttributes._bundleComponentIndex attrs)
  else if bool_decide (Attribute.key attr = BUNDLE_ATTRIBUTES.bundleProductId) then
    BundleLineAttributes.mk (BundleLineAttributes._bundleParent attrs)
      (BundleLineAttributes._bundleComponentOf attrs)
      (Some (Attribute.value attr))
      (BundleLineAttributes._bundleComponentIndex attrs)
  else if bool_decide (Attribute.key attr = BUNDLE_ATTRIBUTES.componentIndex) then
    BundleLineAttributes.mk (BundleLineAttributes._bundleParent attrs)
      (BundleLineAttributes._bundleComponentOf attrs)
      (BundleLineAttributes._bundleProductId attrs)
      (Some (Attribute.value attr))
  else attrs.

Definition getBundleInfoFromLine `{HasAttributes L} (line : L)
    : BundleLineAttributes.t :=
  foldl getBundleInfoStep (BundleLineAttributes.mk None None None None)
    (attributesOf line).

(** One entry of the result map of [groupCartLinesByBundle]. *)
Record BundleGroup (L : Type) := mkGroup {
  bundleProductId : string;
  lines : list L }.
Arguments mkGroup {L} _ _.
Arguments bundleProductId {L} _.
Arguments lines {L} _.

(** The body of the [for] loop: [continue] leaves the map as it is;
    [!bundleId] holds for a missing and for an empty bundle id. *)
Definition groupStep `{HasAttributes L} (groups : gmap string (BundleGroup L))
    (line : L) : gmap string (BundleGroup L) :=
  if negb (isBundleLine line) then groups else
  match BundleLineAttributes._bundleProductId (getBundleInfoFromLine line) with
  | None => groups
  | Some bundleId =>
      if bool_decide (bundleId = "") then groups else
      let groups' :=
        match groups !! bundleId with
        | Some _ => groups
        | None => <[bundleId := mkGroup bundleId []]> groups
        end in
      alter (λ g, mkGroup (bundleProductId g) (lines g ++ [line])) bundleId groups'
  end.

Definition groupCartLinesByBundle `{HasAttributes L} (lines : list L)
    : gmap string (BundleGroup L) :=
  foldl groupStep ∅ lines.

End BuildCartMutation.

(** ** sdk/checkInventory.ts *)

(** A node of the [VariantsInventory] response; a node that is not a
    product variant comes back without the fields, an unknown id as [null]
    ([None] in the list of nodes). *)
Module InventoryNode.
Record t := mk {
  id : option string;
  availableForSale : option bool;
  quantityAvailable : option Z }.
End InventoryNode.

Module CheckInventory.











End CheckInventory.

(** ** sdk/calculatePrice.ts *)

Module CalculatePrice.
Section WithParseFloat.

(** The built-in [parseFloat], read as a function into the model's
    numbers; everything below holds for each such reading. *)
Variable parseFloat : string → Qc.

(** The local variables of [calculatePriceFromDefinition] before they are
    formatted into the result. *)
Record Amounts := mkAmounts {
  componentPrices : list ComponentPrice.t;
  originalPriceTotal : Qc;
  bundlePriceAmount : Qc;
  savingsAmount : Qc;
  savingsPercentage : Qc }.

Definition pushPrice (currencyCode : string)
    (acc : list ComponentPrice.t * Qc) (productId variantId : string)
    (quantity : Z) (variant : BundleComponentVariant.t)
    : list ComponentPrice.t * Qc :=
  let unitPrice := parseFloat (Money.amount (BundleComponentVariant.price variant)) in
  let lineTotal := (unitPrice * Qc_of_Z quantity)%Qc in
  (acc.1 ++ [ComponentPrice.mk productId variantId quantity
               (BundleComponentVariant.price variant)
               (Money.mk (Js.toFixed2 lineTotal) currencyCode)],
   (acc.2 + lineTotal)%Qc).

(** Body of the loop over the customer's selections. *)
Definition selectionStep (definition : BundleDefinition.t) (currencyCode : string)
    (acc : list ComponentPrice.t * Qc) (selection : BundleSelection.t)
    : list ComponentPrice.t * Qc :=
  match find (λ c, bool_decide (BundleComponent.productId c
                                = BundleSelection.productId selection))
             (BundleDefinition.components definition) with
  | None => acc
  | Some component =>
      match find (λ v, bool_decide (BundleComponentVariant.id v
                                    = BundleSelection.variantId selection))
                 (BundleComponent.variants component) with
      | None => acc
      | Some variant =>
          pushPrice currencyCode acc (BundleSelection.productId selection)
            (BundleSelection.variantId selection)
            (BundleSelection.quantity selection) variant
      end
  end.

(** Body of the loop over the definition's components. *)
Definition defaultStep (currencyCode : string)
    (acc : list ComponentPrice.t * Qc) (component : BundleComponent.t)
    : list ComponentPrice.t * Qc :=
  let found :=
    d ← BundleComponent.defaultVariantId component;
    find (λ v, bool_decide (BundleComponentVariant.id v = d))
         (BundleComponent.variants component) in
  match (match found with
         | Some v => Some v
         | None => head (BundleComponent.variants component)
         end) with
  | None => acc
  | Some variant =>
      pushPrice currencyCode acc (BundleComponent.productId component)
        (BundleComponentVariant.id variant)
        (BundleComponent.quantity component) variant
  end.

Definition currencyCodeOf (definition : BundleDefinition.t) : string :=
  default "USD" (BundlePricing.currencyCode (BundleDefinition.pricing definition)).

Definition priceLines (definition : BundleDefinition.t)
    (selectedComponents : option (list BundleSelection.t))
    : list ComponentPrice.t * Qc :=
  let currencyCode := currencyCodeOf definition in
  match selectedComponents with
  | Some (s :: rest) =>
      foldl (selectionStep definition currencyCode) ([], 0%Qc) (s :: rest)
  | _ =>
      foldl (defaultStep currencyCode) ([], 0%Qc)
        (BundleDefinition.components definition)
  end.

Definition discounted (pricing : BundlePricing.t) (originalPriceTotal : Qc) : Qc :=
  match BundlePricing.discountType pricing with
  | percentage =>
      let discountMultiplier :=
        (1 - default 0 (BundlePricing.discountValue pricing) / Qc_of_Z 100)%Qc in
      (originalPriceTotal * discountMultiplier)%Qc
  | fixed_amount =>
      (originalPriceTotal - default 0 (BundlePricing.discountValue pricing))%Qc
  | fixed_price =>
      default originalPriceTotal (BundlePricing.discountValue pricing)
  | custom =>
      match BundlePricing.bundlePrice pricing with
      | Some m => parseFloat (Money.amount m)
      | None => originalPriceTotal
      end
  end.

Definition amountsOf (definition : BundleDefinition.t)
    (selectedComponents : option (list BundleSelection.t)) : Amounts :=
  let lines := priceLines definition selectedComponents in
  let originalPriceTotal := lines.2 in
  let bundlePriceAmount :=
    Js.Math_max 0 (discounted (BundleDefinition.pricing definition) originalPriceTotal) in
  let savingsAmount := (originalPriceTotal - bundlePriceAmount)%Qc in
  let savingsPercentage :=
    if decide (0 < originalPriceTotal)%Qc
    then (savingsAmount / originalPriceTotal * Qc_of_Z 100)%Qc
    else 0%Qc in
  mkAmounts lines.1 originalPriceTotal bundlePriceAmount savingsAmount
    savingsPercentage.

Definition calculatePriceFromDefinition (definition : BundleDefinition.t)
    (selectedComponents : option (list BundleSelection.t)) : BundlePriceResult.t :=
  let currencyCode := currencyCodeOf definition in
  let a := amountsOf definition selectedComponents in
  BundlePriceResult.mk
    (Money.mk (Js.toFixed2 (originalPriceTotal a)) currencyCode)
    (Money.mk (Js.toFixed2 (bundlePriceAmount a)) currencyCode)
    (Money.mk (Js.toFixed2 (savingsAmount a)) currencyCode)
    (savingsPercentage a)
    (componentPrices a).

End WithParseFloat.
End CalculatePrice.

(** ** sdk/resolveBundle.ts *)

(** The raw product of the Storefront API, as [parseStorefrontResponse]
    declares it. *)
Module StorefrontComponentProduct.
Record t := mk {
  id : string;
  title : string;
  handle : string;
  featuredImage : option ProductImage.t }.
End StorefrontComponentProduct.

Module StorefrontBundleComponent.
Record t := mk {
  product : StorefrontComponentProduct.t;
  variant : BundleComponentVariant.t;
  quantity : Z }.
End StorefrontBundleComponent.

Module StorefrontVariant.
Record t := mk {
  id : string;
  title : string;
  price : Money.t;
  compareAtPrice : option Money.t;
  availableForSale : bool;
  bundleComponents : option (list StorefrontBundleComponent.t) }.
End StorefrontVariant.

Module PriceRange.
Record t := mk { minVariantPrice : Money.t; maxVariantPrice : Money.t }.
End PriceRange.

Module StorefrontProduct.
Record t := mk {
  id : string;
  title : string;
  handle : string;
  description : option string;
  availableForSale : bool;
  featuredImage : option ProductImage.t;
  variants : list StorefrontVariant.t;
  priceRange : option PriceRange.t;
  compareAtPriceRange : option PriceRange.t }.
End StorefrontProduct.

Module ResolveBundle.
Section WithParseFloat.

Variable parseFloat : string → Qc.

(** The variant the product is a bundle through: the first one whose
    component list is present and not empty. *)
Definition bundleVariantOf (product : StorefrontProduct.t)
    : option StorefrontVariant.t :=
  find (λ v, match StorefrontVariant.bundleComponents v with
             | Some nodes => bool_decide (0 < length nodes)%nat
             | None => false
             end)
       (StorefrontProduct.variants product).

Definition componentOf (bc : StorefrontBundleComponent.t) : BundleComponent.t :=
  let p := StorefrontBundleComponent.product bc in
  let v := StorefrontBundleComponent.variant bc in
  BundleComponent.mk
    (StorefrontComponentProduct.id p)
    (StorefrontComponentProduct.title p)
    (StorefrontComponentProduct.handle p)
    (StorefrontComponentProduct.featuredImage p)
    [ BundleComponentVariant.mk
        (BundleComponentVariant.id v)
        (BundleComponentVariant.title v)
        (BundleComponentVariant.price v)
        (BundleComponentVariant.compareAtPrice v)
        (BundleComponentVariant.sku v)
        (BundleComponentVariant.availableForSale v)
        (BundleComponentVariant.quantityAvailable v)
        (BundleComponentVariant.image v)
        (BundleComponentVariant.selectedOptions v) ]
    (Some (BundleComponentVariant.id v))
    (StorefrontBundleComponent.quantity bc)
    None None None
    (Some true)
    None.

(** [components.reduce(...)]; [comp.variants[0]!] always exists for the
    components built by [componentOf], the [None] branch is the
    [TypeError] the expression would raise otherwise. *)
Definition originalPriceAmountOf (components : list BundleComponent.t)
    : option Qc :=
  foldl (λ sum comp,
           sum ← sum;
           variant ← head (BundleComponent.variants comp);
           Some (sum + parseFloat (Money.amount (BundleComponentVariant.price variant))
                       * Qc_of_Z (BundleComponent.quantity comp))%Qc)
        (Some 0%Qc) components.

(** The numbers [parseStorefrontResponse] computes for a bundle variant. *)
Record Savings := mkSavings {
  originalPriceAmount : Qc;
  bundlePriceAmount : Qc;
  savingsAmount : Qc;
  savingsPercentage : Qc }.

Definition savingsOf (bundleVariant : StorefrontVariant.t)
    (components : list BundleComponent.t) : option Savings :=
  originalPriceAmount ← originalPriceAmountOf components;
  let bundlePriceAmount :=
    parseFloat (Money.amount (StorefrontVariant.price bundleVariant)) in
  let savingsAmount := (originalPriceAmount - bundlePriceAmount)%Qc in
  let savingsPercentage :=
    if decide (0 < originalPriceAmount)%Qc
    then (savingsAmount / originalPriceAmount * Qc_of_Z 100)%Qc
    else 0%Qc in
  Some (mkSavings originalPriceAmount bundlePriceAmount savingsAmount
          savingsPercentage).

Definition discountTypeOf (savingsPercentage : Qc) : BundleDiscountType :=
  if bool_decide (savingsPercentage = Js.Math_round savingsPercentage)
  then percentage else fixed_amount.

(** The outer [option] is the [TypeError] channel (never taken, see
    [originalPriceAmountOf]); the inner one is the [null] returned for a
    product that is not a bundle. *)
Definition parseStorefrontResponse (product : StorefrontProduct.t)
    : option (option BundleDefinition.t) :=
  match bundleVariantOf product with
  | None => Some None
  | Some bundleVariant =>
      match StorefrontVariant.bundleComponents bundleVariant with
      | None => Some None
      | Some nodes =>
          let components := componentOf <$> nodes in
          s ← savingsOf bundleVariant components;
          let discountType := discountTypeOf (savingsPercentage s) in
          let bundleType := fixed in
          let currencyCode :=
            Money.currencyCode (StorefrontVariant.price bundleVariant) in
          Some (Some (BundleDefinition.mk
            (StorefrontProduct.id product)
            (StorefrontProduct.title product)
            (StorefrontProduct.handle product)
            (StorefrontProduct.description product)
            bundleType
            components
            (BundlePricing.mk
               discountType
               (Some (if decide (discountType = percentage)
                      then savingsPercentage s else savingsAmount s))
               (Some currencyCode)
               (Some (Money.mk (Js.toFixed2 (originalPriceAmount s)) currencyCode))
               (Some (StorefrontVariant.price bundleVariant))
               (Some (Money.mk (Js.toFixed2 (savingsAmount s)) currencyCode))
               (Some (savingsPercentage s)))
            None None
            (StorefrontProduct.featuredImage product)
            (StorefrontProduct.availableForSale product)
            (Some (StorefrontVariant.id bundleVariant))))
      end
  end.

End WithParseFloat.
End ResolveBundle.

(** ** utils/validation.ts *)

Module ValidationResult.
Record t := mk { valid : bool; error : option string }.
End ValidationResult.

Module Validation.

Definition ok : ValidationResult.t := ValidationResult.mk true None.
Definition fail (message : string) : ValidationResult.t :=
  ValidationResult.mk false (Some message).

(** The condition [bound && p(bound)] on an optional number: a missing
    bound and the bound [0] are both falsy. *)
Definition bounded (bound : option Z) (p : Z → bool) : option Z :=
  match bound with
  | Some b => if negb (bool_decide (b = 0)) && p b then Some b else None
  | None => None
  end.

Definition totalSelections (selections : list BundleSelection.t) : Z :=
  foldl (λ sum s, sum + BundleSelection.quantity s) 0 selections.

(** The checks made on one selection; [None] when it passes. *)
Definition validateSelection (definition : BundleDefinition.t)
    (selection : BundleSelection.t) : option string :=
  match find (λ c, bool_decide (BundleComponent.productId c
                                = BundleSelection.productId selection))
             (BundleDefinition.components definition) with
  | None =>
      Some ("Invalid product selection: " +:+ BundleSelection.productId selection)
  | Some component =>
      match find (λ v, bool_decide (BundleComponentVariant.id v
                                    = BundleSelection.variantId selection))
                 (BundleComponent.variants component) with
      | None =>
          Some ("Invalid variant selection for "
                +:+ BundleComponent.productTitle component)
      | Some _ =>
          if default false (BundleComponent.allowQuantitySelection component) then
            match bounded (BundleComponent.minQuantity component)
                    (λ b, bool_decide (BundleSelection.quantity selection < b)) with
            | Some minQuantity =>
                Some ("Minimum quantity for "
                      +:+ BundleComponent.productTitle component
                      +:+ " is " +:+ Js.String minQuantity)
            | None =>
                match bounded (BundleComponent.maxQuantity component)
                        (λ b, bool_decide (b < BundleSelection.quantity selection)) with
                | Some maxQuantity =>
                    Some ("Maximum quantity for "
                          +:+ BundleComponent.productTitle component
                          +:+ " is " +:+ Js.String maxQuantity)
                | None => None
                end
            end
          else None
      end
  end.

(** The [for] loop over the selections: the first failing one returns. *)
Fixpoint validateSelections (definition : BundleDefinition.t)
    (selections : list BundleSelection.t) : ValidationResult.t :=
  match selections with
  | [] => ok
  | selection :: rest =>
      match validateSelection definition selection with
      | Some message => fail message
      | None => validateSelections definition rest
      end
  end.

Definition validateBundleSelection (definition : BundleDefinition.t)
    (selections : list BundleSelection.t) : ValidationResult.t :=
  if decide (BundleDefinition.bundleType definition = fixed) then ok else
  let totalSelections := totalSelections selections in
  match bounded (BundleDefinition.minSelections definition)
          (λ b, bool_decide (totalSelections < b)) with
  | Some minSelections =>
      fail ("Please select at least " +:+ Js.String minSelections +:+ " items.")
  | None =>
      match bounded (BundleDefinition.maxSelections definition)
              (λ b, bool_decide (b < totalSelections)) with
      | Some maxSelections =>
          fail ("You can select at most " +:+ Js.String maxSelections +:+ " items.")
      | None => validateSelections definition selections
      end
  end.

End Validation.


(** ** More JavaScript built-ins *)

Module JsString.

(** [s.includes(needle)] for a non-empty [needle]. *)
Definition includes (s needle : string) : bool :=
  match String.index 0 needle s with
  | Some _ => true
  | None => false
  end.

(** [s.startsWith(p)]. *)
Definition startsWith (s p : string) : bool := String.prefix p s.

(** [l.join(sep)]. *)
Fixpoint join (sep : string) (l : list string) : string :=
  match l with
  | [] => ""
  | [x] => x
  | x :: rest => x +:+ sep +:+ join sep rest
  end.

(** [l.sort()] on an array of strings: the default comparison orders
    strings by their code units; the strings of the model are byte strings,
    ordered bytewise, which is the same order on ASCII text. *)
Definition sort (l : list string) : list string :=
  sorting.merge_sort String.le l.

(** A non-empty string is truthy. *)
Definition truthy (s : option string) : bool :=
  match s with
  | Some s => negb (bool_decide (s = ""))
  | None => false
  end.

End JsString.

(** ** utils/errors.ts *)

Module DEFAULT_ERROR_MESSAGES.
Definition bundleNotFound : string := "Bundle not found.".
Definition componentOutOfStock : string :=
  "One or more bundle components are out of stock.".
Definition invalidSelection : string :=
  "Invalid component selection. Please select the required items.".
Definition selectionIncomplete : string := "Please complete your bundle selection.".
Definition cartError : string := "Failed to add bundle to cart. Please try again.".
Definition network : string := "Network error. Please check your connection.".
Definition rateLimited : string := "Too many requests. Please wait a moment.".
Definition invalidConfig : string := "Invalid BundleBridge configuration.".
Definition providerMissing : string :=
  "useBundleContext must be used within a BundleProvider.".
Definition unknown : string := "An unexpected error occurred.".
End DEFAULT_ERROR_MESSAGES.

(** The type [ErrorCode]: the values of [ERROR_CODES]. *)
Inductive ErrorCode :=
  | BUNDLE_NOT_FOUND | COMPONENT_OUT_OF_STOCK | INVALID_SELECTION
  | SELECTION_INCOMPLETE | CART_ERROR | NETWORK_ERROR | RATE_LIMITED
  | INVALID_CONFIG | PROVIDER_MISSING | UNKNOWN_ERROR.

#[global] Instance ErrorCode_eq_dec : EqDecision ErrorCode.
Proof. solve_decision. Defined.

Module ERROR_CODES.
(** The string each code is. *)
Definition text (code : ErrorCode) : string :=
  match code with
  | BUNDLE_NOT_FOUND => "BUNDLE_NOT_FOUND"
  | COMPONENT_OUT_OF_STOCK => "COMPONENT_OUT_OF_STOCK"
  | INVALID_SELECTION => "INVALID_SELECTION"
  | SELECTION_INCOMPLETE => "SELECTION_INCOMPLETE"
  | CART_ERROR => "CART_ERROR"
  | NETWORK_ERROR => "NETWORK_ERROR"
  | RATE_LIMITED => "RATE_LIMITED"
  | INVALID_CONFIG => "INVALID_CONFIG"
  | PROVIDER_MISSING => "PROVIDER_MISSING"
  | UNKNOWN_ERROR => "UNKNOWN_ERROR"
  end.
End ERROR_CODES.

(** The [details] of an error: the two keys the class reads; any other key
    is carried along untouched and is not modelled. *)
Module ErrorDetails.
Record t := mk { componentId : option string; variantId : option string }.
End ErrorDetails.

Module BundleBridgeError.
Record t := mk {
  code : string;
  message : string;
  componentId : option string;
  variantId : option string;
  details : option ErrorDetails.t }.
End BundleBridgeError.

(** What a [catch] clause can receive: a [BundleBridgeError], another
    [Error] with its message, or a value that is no [Error]. *)
Inductive Thrown :=
  | ThrownBundleBridgeError (error : BundleBridgeError.t)
  | ThrownError (message : string)
  | ThrownValue.

Module ApiErrorResponse.
Record t := mk {
  status : Z;
  error : option string;
  code : option string;
  details : option ErrorDetails.t }.
End ApiErrorResponse.

Module Errors.

Definition defaultMessages (code : ErrorCode) : string :=
  match code with
  | BUNDLE_NOT_FOUND => DEFAULT_ERROR_MESSAGES.bundleNotFound
  | COMPONENT_OUT_OF_STOCK => DEFAULT_ERROR_MESSAGES.componentOutOfStock
  | INVALID_SELECTION => DEFAULT_ERROR_MESSAGES.invalidSelection
  | SELECTION_INCOMPLETE => DEFAULT_ERROR_MESSAGES.selectionIncomplete
  | CART_ERROR => DEFAULT_ERROR_MESSAGES.cartError
  | NETWORK_ERROR => DEFAULT_ERROR_MESSAGES.network
  | RATE_LIMITED => DEFAULT_ERROR_MESSAGES.rateLimited
  | INVALID_CONFIG => DEFAULT_ERROR_MESSAGES.invalidConfig
  | PROVIDER_MISSING => DEFAULT_ERROR_MESSAGES.providerMissing
  | UNKNOWN_ERROR => DEFAULT_ERROR_MESSAGES.unknown
  end.

Definition createError (code : ErrorCode) (customMessage : option string)
    (details : option ErrorDetails.t) : BundleBridgeError.t :=
  BundleBridgeError.mk (ERROR_CODES.text code)
    (default (defaultMessages code) customMessage)
    (details ≫= ErrorDetails.componentId)
    (details ≫= ErrorDetails.variantId)
    details.

Definition parseApiError (response : ApiErrorResponse.t) : BundleBridgeError.t :=
  if bool_decide (ApiErrorResponse.status response = 404) then
    createError BUNDLE_NOT_FOUND (ApiErrorResponse.error response) None
  else if bool_decide (ApiErrorResponse.status response = 429) then
    createError RATE_LIMITED (ApiErrorResponse.error response) None
  else if bool_decide (ApiErrorResponse.code response = Some "COMPONENT_OUT_OF_STOCK") then
    createError COMPONENT_OUT_OF_STOCK (ApiErrorResponse.error response)
      (ApiErrorResponse.details response)
  else if bool_decide (ApiErrorResponse.code response = Some "INVALID_SELECTION") then
    createError INVALID_SELECTION (ApiErrorResponse.error response)
      (ApiErrorResponse.details response)
  else createError UNKNOWN_ERROR (ApiErrorResponse.error response) None.

Definition getUserMessage (error : Thrown) : string :=
  match error with
  | ThrownBundleBridgeError e => BundleBridgeError.message e
  | ThrownError message =>
      if JsString.includes message "fetch" || JsString.includes message "network"
      then DEFAULT_ERROR_MESSAGES.network
      else message
  | ThrownValue => DEFAULT_ERROR_MESSAGES.unknown
  end.

Definition isErrorCode (error : Thrown) (code : ErrorCode) : bool :=
  match error with
  | ThrownBundleBridgeError e =>
      bool_decide (BundleBridgeError.code e = ERROR_CODES.text code)
  | _ => false
  end.

Definition isRecoverableError (error : Thrown) : bool :=
  match error with
  | ThrownBundleBridgeError e =>
      let recoverableCodes :=
        [ ERROR_CODES.text NETWORK_ERROR;
          ERROR_CODES.text RATE_LIMITED;
          ERROR_CODES.text CART_ERROR ] in
      bool_decide (BundleBridgeError.code e ∈ recoverableCodes)
  | _ => false
  end.

End Errors.

(** ** utils/cache.ts *)

Module CACHE_TTL.
Definition definition : Z := 5 * 60 * 1000.
Definition inventory : Z := 30 * 1000.
Definition price : Z := 60 * 1000.
End CACHE_TTL.

Module CacheEntry.
Record t (T : Type) := mk { data : T; timestamp : Z; ttl : Z }.
Arguments mk {T} _ _ _.
Arguments data {T} _.
Arguments timestamp {T} _.
Arguments ttl {T} _.
End CacheEntry.

(** The module-level [memoryCache]; each [Record<string, CacheEntry>] is the
    map of its own keys. *)
Module BundleCache.
Record t := mk {
  definitions : gmap string (CacheEntry.t BundleDefinition.t);
  inventory : gmap string (CacheEntry.t BundleInventory.t);
  prices : gmap string (CacheEntry.t BundlePriceResult.t) }.
End BundleCache.

(** The [{ variantId, quantity }] pairs the cache keys are made of. *)
Module KeySelection.
Record t := mk { variantId : string; quantity : Z }.
End KeySelection.

Module Cache.

(** [getFromCache]: the answer and the cache it leaves, at clock reading
    [now]; an expired entry is deleted. *)
Definition getFromCache {T} (cache : gmap string (CacheEntry.t T)) (key : string)
    (now : Z) : option T * gmap string (CacheEntry.t T) :=
  match cache !! key with
  | None => (None, cache)
  | Some entry =>
      if bool_decide (CacheEntry.ttl entry < now - CacheEntry.timestamp entry)
      then (None, delete key cache)
      else (Some (CacheEntry.data entry), cache)
  end.

Definition setInCache {T} (cache : gmap string (CacheEntry.t T)) (key : string)
    (data : T) (ttl : Z) (now : Z) : gmap string (CacheEntry.t T) :=
  <[key := CacheEntry.mk data now ttl]> cache.

Definition getCachedDefinition (memoryCache : BundleCache.t) (bundleId : string)
    (now : Z) : option BundleDefinition.t * BundleCache.t :=
  let '(r, definitions) :=
    getFromCache (BundleCache.definitions memoryCache) bundleId now in
  (r, BundleCache.mk definitions (BundleCache.inventory memoryCache)
        (BundleCache.prices memoryCache)).

Definition cacheDefinition (memoryCache : BundleCache.t) (bundleId : string)
    (definition : BundleDefinition.t) (ttl : option Z) (now : Z) : BundleCache.t :=
  BundleCache.mk
    (setInCache (BundleCache.definitions memoryCache) bundleId definition
       (default CACHE_TTL.definition ttl) now)
    (BundleCache.inventory memoryCache) (BundleCache.prices memoryCache).

Definition selectionsHash (selections : list KeySelection.t) : string :=
  JsString.join ","
    (JsString.sort
       ((λ s, KeySelection.variantId s +:+ ":" +:+ Js.String (KeySelection.quantity s))
        <$> selections)).

Definition getInventoryCacheKey (bundleId : string)
    (selections : option (list KeySelection.t)) : string :=
  match selections with
  | Some (s :: rest) => bundleId +:+ "|" +:+ selectionsHash (s :: rest)
  | _ => bundleId
  end.

Definition getCachedInventory (memoryCache : BundleCache.t) (bundleId : string)
    (selections : option (list KeySelection.t)) (now : Z)
    : option BundleInventory.t * BundleCache.t :=
  let key := getInventoryCacheKey bundleId selections in
  let '(r, inventory) := getFromCache (BundleCache.inventory memoryCache) key now in
  (r, BundleCache.mk (BundleCache.definitions memoryCache) inventory
        (BundleCache.prices memoryCache)).

Definition cacheInventory (memoryCache : BundleCache.t) (bundleId : string)
    (inventory : BundleInventory.t) (selections : option (list KeySelection.t))
    (ttl : option Z) (now : Z) : BundleCache.t :=
  let key := getInventoryCacheKey bundleId selections in
  BundleCache.mk (BundleCache.definitions memoryCache)
    (setInCache (BundleCache.inventory memoryCache) key inventory
       (default CACHE_TTL.inventory ttl) now)
    (BundleCache.prices memoryCache).

Definition getPriceCacheKey (bundleId : string)
    (selections : option (list KeySelection.t)) : string :=
  match selections with
  | Some (s :: rest) => bundleId +:+ "|" +:+ selectionsHash (s :: rest)
  | _ => bundleId
  end.

Definition getCachedPrice (memoryCache : BundleCache.t) (bundleId : string)
    (selections : option (list KeySelection.t)) (now : Z)
    : option BundlePriceResult.t * BundleCache.t :=
  let key := getPriceCacheKey bundleId selections in
  let '(r, prices) := getFromCache (BundleCache.prices memoryCache) key now in
  (r, BundleCache.mk (BundleCache.definitions memoryCache)
        (BundleCache.inventory memoryCache) prices).

Definition cachePrice (memoryCache : BundleCache.t) (bundleId : string)
    (price : BundlePriceResult.t) (selections : option (list KeySelection.t))
    (ttl : option Z) (now : Z) : BundleCache.t :=
  let key := getPriceCacheKey bundleId selections in
  BundleCache.mk (BundleCache.definitions memoryCache)
    (BundleCache.inventory memoryCache)
    (setInCache (BundleCache.prices memoryCache) key price
       (default CACHE_TTL.price ttl) now).

(** The two [forEach] loops of [clearBundleCache] delete the keys that
    start with the bundle id. *)
Definition deleteStartingWith {T} (bundleId : string)
    (cache : gmap string (CacheEntry.t T)) : gmap string (CacheEntry.t T) :=
  filter (λ kv, JsString.startsWith kv.1 bundleId = false) cache.

Definition clearBundleCache (memoryCache : BundleCache.t) (bundleId : string)
    : BundleCache.t :=
  BundleCache.mk
    (delete bundleId (BundleCache.definitions memoryCache))
    (deleteStartingWith bundleId (BundleCache.inventory memoryCache))
    (deleteStartingWith bundleId (BundleCache.prices memoryCache)).

Definition clearAllCache : BundleCache.t := BundleCache.mk ∅ ∅ ∅.

End Cache.


(** ** utils/validation.ts: identifiers *)

Module Gid.

Definition isDigit (c : ascii) : bool :=
  let n := Z.of_N (N_of_ascii c) in bool_decide (48 ≤ n ≤ 57).

(** The class [\w]: letters, digits and the underscore. *)
Definition isWordChar (c : ascii) : bool :=
  let n := Z.of_N (N_of_ascii c) in
  bool_decide (48 ≤ n ≤ 57) || bool_decide (65 ≤ n ≤ 90)
  || bool_decide (97 ≤ n ≤ 122) || bool_decide (n = 95).

Fixpoint allDigits (s : string) : bool :=
  match s with
  | EmptyString => true
  | String c rest => isDigit c && allDigits rest
  end.

(** [\d+$]. *)
Definition digitsToEnd (s : string) : bool :=
  negb (bool_decide (s = "")) && allDigits s.

Fixpoint dropPrefix (p s : string) : option string :=
  match p, s with
  | EmptyString, _ => Some s
  | String a p', String b s' => if bool_decide (a = b) then dropPrefix p' s' else None
  | String _ _, EmptyString => None
  end.

(** [\w+\/\d+$]; [seen] tells that a word character has been read.  A word
    character is never a slash, so the run of word characters is read to
    its end. *)
Fixpoint wordSlashDigits (seen : bool) (s : string) : bool :=
  match s with
  | EmptyString => false
  | String c rest =>
      if isWordChar c then wordSlashDigits true rest
      else seen && bool_decide (c = "/"%char) && digitsToEnd rest
  end.

(** [/^gid:\/\/shopify\/\w+\/\d+$/.test(gid)]. *)
Definition isValidGid (gid : string) : bool :=
  match dropPrefix "gid://shopify/" gid with
  | Some rest => wordSlashDigits false rest
  | None => false
  end.

(** [gid.match(/\/(\d+)$/)]: the search goes from the left for a slash
    that only digits follow, and answers those digits. *)
Fixpoint extractNumericId (gid : string) : option string :=
  match gid with
  | EmptyString => None
  | String c rest =>
      if bool_decide (c = "/"%char) && digitsToEnd rest then Some rest
      else extractNumericId rest
  end.

End Gid.

(** ** types.ts: configuration and results of the cart mutation *)

Module BundleBridgeConfig.
Record t := mk {
  apiUrl : option string;
  apiKey : option string;
  storeDomain : string;
  storefrontAccessToken : option string;
  apiVersion : option string;
  enableCache : option bool;
  cacheTtl : option Z }.
End BundleBridgeConfig.

Definition DEFAULT_API_VERSION : string := "2025-01".

Module Cart.
Record t := mk { id : string; lines : list CartLine.t; totalAmount : Money.t }.
End Cart.

Module FailedComponent.
Record t := mk { productId : string; variantId : string; reason : string }.
End FailedComponent.

Module AddBundleResult.
Record t := mk {
  success : bool;
  cart : option Cart.t;
  error : option string;
  failedComponent : option FailedComponent.t }.
End AddBundleResult.

(** ** The Storefront API as the cart mutation sees it *)

(** The two mutation documents of [graphql/mutations.ts], by name. *)
Inductive CartMutation := CART_LINES_ADD_MUTATION | CART_CREATE_MUTATION.

(** The [variables] sent with them: [{ cartId, lines }] and
    [{ input: { lines } }]. *)
Inductive CartVariables :=
  | LinesAddVariables (cartId : string) (lines : list CartLineInput.t)
  | CreateVariables (lines : list CartLineInput.t).

Module CartRequest.
Record t := mk {
  url : string;
  method : string;
  headers : list (string * string);
  query : CartMutation;
  variables : CartVariables }.
End CartRequest.

Module CartUserError.
Record t := mk { field : option (list string); message : string; code : string }.
End CartUserError.

Module CartPayload.
Record t := mk { cart : option Cart.t; userErrors : option (list CartUserError.t) }.
End CartPayload.

Module GraphQLError.
Record t := mk { message : option string }.
End GraphQLError.

Module CartData.
Record t := mk { cartCreate : option CartPayload.t; cartLinesAdd : option CartPayload.t }.
End CartData.

Module CartResponseBody.
Record t := mk { errors : option (list GraphQLError.t); data : option CartData.t }.
End CartResponseBody.

(** What [await fetch(...)] and [await response.json()] come to: the
    request is rejected, or answered with [ok], [status] and a body that
    parses or throws. *)
Inductive FetchOutcome :=
  | FetchRejected (error : Thrown)
  | FetchResolved (ok : bool) (status : Z) (json : Thrown + CartResponseBody.t).

Module ExecuteResult.
Record t := mk { cart : option Cart.t; userErrors : option (list CartUserError.t) }.
End ExecuteResult.

(** ** sdk/buildCartMutation.ts: the mutation *)

Module CartMutationCall.
Section WithNetwork.

(** The network: the answer to each request. *)
Variable fetch : CartRequest.t → FetchOutcome.

(** [parseInt(s, 10)]; [None] is [NaN]. *)
Variable parseInt : string → option Z.

Definition requestOf (config : BundleBridgeConfig.t) (token : string)
    (mutation : CartMutation) (variables : CartVariables) : CartRequest.t :=
  let apiVersion := default DEFAULT_API_VERSION (BundleBridgeConfig.apiVersion config) in
  CartRequest.mk
    ("https://" +:+ BundleBridgeConfig.storeDomain config +:+ "/api/"
     +:+ apiVersion +:+ "/graphql.json")
    "POST"
    [ ("Content-Type", "application/json");
      ("X-Shopify-Storefront-Access-Token", token) ]
    mutation variables.

(** [executeCartMutation]: what it returns, or what it throws. *)
Definition executeCartMutation (config : BundleBridgeConfig.t)
    (mutation : CartMutation) (variables : CartVariables)
    : Thrown + ExecuteResult.t :=
  match BundleBridgeConfig.storefrontAccessToken config with
  | Some token =>
      if bool_decide (token = "") then
        inl (ThrownBundleBridgeError
               (Errors.createError INVALID_CONFIG
                  (Some "storefrontAccessToken is required for cart operations") None))
      else
        match fetch (requestOf config token mutation variables) with
        | FetchRejected error => inl error
        | FetchResolved ok status json =>
            if negb ok then
              inl (ThrownBundleBridgeError
                     (Errors.createError NETWORK_ERROR
                        (Some ("Storefront API error: " +:+ Js.String status)) None))
            else
              match json with
              | inl error => inl error
              | inr data =>
                  match CartResponseBody.errors data with
                  | Some errors =>
                      inl (ThrownBundleBridgeError
                             (Errors.createError CART_ERROR
                                (Some (default "GraphQL error"
                                         (head errors ≫= GraphQLError.message)))
                                None))
                  | None =>
                      let result :=
                        match CartResponseBody.data data ≫= CartData.cartCreate with
                        | Some r => Some r
                        | None => CartResponseBody.data data ≫= CartData.cartLinesAdd
                        end in
                      inr (ExecuteResult.mk (result ≫= CartPayload.cart)
                             (result ≫= CartPayload.userErrors))
                  end
              end
        end
  | None =>
      inl (ThrownBundleBridgeError
             (Errors.createError INVALID_CONFIG
                (Some "storefrontAccessToken is required for cart operations") None))
  end.

(** [lines[lineIndex]] for an integral index. *)
Definition lineAt (lines : list CartLineInput.t) (lineIndex : Z)
    : option CartLineInput.t :=
  if bool_decide (0 ≤ lineIndex) then lines !! Z.to_nat lineIndex else None.

(** The component the first user error points at, if its field path names a
    line.  A path of one segment has no [field[1]], and [parseInt] of
    [undefined] is [NaN]. *)
Definition failedComponentOf (lines : list CartLineInput.t)
    (firstError : CartUserError.t) : option FailedComponent.t :=
  match CartUserError.field firstError with
  | Some (segment :: rest) =>
      lineIndex ← (head rest ≫= parseInt);
      line ← lineAt lines lineIndex;
      componentProductId ←
        Attribute.value <$>
          find (λ a, bool_decide (Attribute.key a = BUNDLE_ATTRIBUTES.componentProductId))
               (CartLineInput.attributes line);
      if bool_decide (componentProductId = "") then None
      else Some (FailedComponent.mk componentProductId
                   (CartLineInput.merchandiseId line)
                   (CartUserError.message firstError))
  | _ => None
  end.

(** The [try] block of [addBundleToCart] with its [catch]. *)
Definition submitLines (config : BundleBridgeConfig.t) (input : AddBundleInput.t)
    (lines : list CartLineInput.t) : AddBundleResult.t :=
  let result :=
    match AddBundleInput.cartId input with
    | Some cartId =>
        if bool_decide (cartId = "")
        then executeCartMutation config CART_CREATE_MUTATION (CreateVariables lines)
        else executeCartMutation config CART_LINES_ADD_MUTATION
               (LinesAddVariables cartId lines)
    | None => executeCartMutation config CART_CREATE_MUTATION (CreateVariables lines)
    end in
  match result with
  | inr result =>
      match ExecuteResult.userErrors result with
      | Some (firstError :: rest) =>
          AddBundleResult.mk false None (Some (CartUserError.message firstError))
            (failedComponentOf lines firstError)
      | _ => AddBundleResult.mk true (ExecuteResult.cart result) None None
      end
  | inl (ThrownBundleBridgeError error) =>
      AddBundleResult.mk false None (Some (BundleBridgeError.message error)) None
  | inl (ThrownError message) => AddBundleResult.mk false None (Some message) None
  | inl ThrownValue =>
      AddBundleResult.mk false None (Some "Failed to add bundle to cart") None
  end.

(** [addBundleToCart]; [None] is the [TypeError] of [buildBundleCartLines],
    which is raised outside the [try] block. *)
Definition addBundleToCart (definition : BundleDefinition.t)
    (config : BundleBridgeConfig.t) (input : AddBundleInput.t)
    : option AddBundleResult.t :=
  let validation :=
    if decide (BundleDefinition.bundleType definition = mix_and_match)
    then Validation.validateBundleSelection definition
           (default [] (AddBundleInput.selectedComponents input))
    else Validation.ok in
  if negb (ValidationResult.valid validation) then
    Some (AddBundleResult.mk false None
            (Some (default "Invalid bundle selection" (ValidationResult.error validation)))
            None)
  else
    lines ← BuildCartMutation.buildBundleCartLines definition input;
    Some (submitLines config input lines).

End WithNetwork.
End CartMutationCall.

(** ** hooks/useBundleCart.ts: [useBundleLines] *)

Module UseBundleLines.

Record t := mk {
  bundleGroups : gmap string (BuildCartMutation.BundleGroup CartLine.t);
  nonBundleLines : list CartLine.t }.

(** The ids of the lines of all groups. *)
Definition bundleLineIds
    (groups : gmap string (BuildCartMutation.BundleGroup CartLine.t)) : gset string :=
  list_to_set
    (CartLine.id <$> (map_to_list groups ≫= λ kv, BuildCartMutation.lines kv.2)).

Definition useBundleLines (lines : list CartLine.t) : t :=
  let bundleGroups := BuildCartMutation.groupCartLinesByBundle lines in
  let ids := bundleLineIds bundleGroups in
  mk bundleGroups (filter (λ line, CartLine.id line ∉ ids) lines).

End UseBundleLines.


(** ** sdk/resolveBundle.ts: the lookup *)

(** The two product queries of [graphql/queries.ts], by name, with their
    variables [{ id }] and [{ handle }]. *)
Inductive ProductQuery :=
  | BUNDLE_PRODUCT_QUERY (id : string)
  | BUNDLE_PRODUCT_BY_HANDLE_QUERY (handle : string).

Module ProductRequest.
Record t := mk {
  url : string;
  method : string;
  headers : list (string * string);
  query : ProductQuery }.
End ProductRequest.

(** The body of the answer; [product] is [data.data?.product]. *)
Module ProductResponseBody.
Record t := mk {
  errors : option (list GraphQLError.t);
  product : option StorefrontProduct.t }.
End ProductResponseBody.

Inductive ProductFetchOutcome :=
  | ProductFetchRejected (error : Thrown)
  | ProductFetchResolved (ok : bool) (status : Z)
      (json : Thrown + ProductResponseBody.t).

Module ResolveOptions.
Record t := mk { skipCache : option bool }.
End ResolveOptions.

(** The readings of [Date.now()] during one [resolveBundle]. *)
Module ResolveClock.
Record t := mk { atLookup : Z; atStore : Z }.
End ResolveClock.

Module ResolveBundleCall.
Section WithNetwork.

Variable parseFloat : string → Qc.

(** The storefront, and the hosted backend as [resolveFromBackend] reports
    it (its bundle, or what it throws). *)
Variable fetch : ProductRequest.t → ProductFetchOutcome.
Variable resolveFromBackend :
  string → BundleBridgeConfig.t → Thrown + BundleDefinition.t.

Definition throw (code : ErrorCode) (customMessage : option string)
    : Thrown + BundleDefinition.t :=
  inl (ThrownBundleBridgeError (Errors.createError code customMessage None)).

Definition productRequestOf (config : BundleBridgeConfig.t) (token bundleId : string)
    : ProductRequest.t :=
  let apiVersion := default DEFAULT_API_VERSION (BundleBridgeConfig.apiVersion config) in
  ProductRequest.mk
    ("https://" +:+ BundleBridgeConfig.storeDomain config +:+ "/api/"
     +:+ apiVersion +:+ "/graphql.json")
    "POST"
    [ ("Content-Type", "application/json");
      ("X-Shopify-Storefront-Access-Token", token) ]
    (if Gid.isValidGid bundleId then BUNDLE_PRODUCT_QUERY bundleId
     else BUNDLE_PRODUCT_BY_HANDLE_QUERY bundleId).

(** [resolveFromStorefrontApi]: the definition, or what it throws.  The
    last branch stands for a [TypeError] raised inside
    [parseStorefrontResponse], whose message is the engine's; it is never
    taken, since that function always returns. *)
Definition resolveFromStorefrontApi (bundleId : string)
    (config : BundleBridgeConfig.t) : Thrown + BundleDefinition.t :=
  if negb (JsString.truthy (BundleBridgeConfig.storefrontAccessToken config)) then
    throw INVALID_CONFIG
      (Some "storefrontAccessToken is required when not using hosted backend")
  else
    let token := default "" (BundleBridgeConfig.storefrontAccessToken config) in
    match fetch (productRequestOf config token bundleId) with
    | ProductFetchRejected error => inl error
    | ProductFetchResolved ok status json =>
        if negb ok then
          throw NETWORK_ERROR (Some ("Storefront API error: " +:+ Js.String status))
        else
          match json with
          | inl error => inl error
          | inr data =>
              match ProductResponseBody.errors data with
              | Some errors =>
                  throw UNKNOWN_ERROR
                    (Some (default "GraphQL error" (head errors ≫= GraphQLError.message)))
              | None =>
                  match ProductResponseBody.product data with
                  | None => throw BUNDLE_NOT_FOUND None
                  | Some product =>
                      match ResolveBundle.parseStorefrontResponse parseFloat product with
                      | Some (Some definition) => inr definition
                      | Some None => throw BUNDLE_NOT_FOUND (Some "Product is not a bundle")
                      | None => inl (ThrownError "TypeError")
                      end
                  end
              end
          end
    end.

(** [config.apiKey && config.apiUrl]. *)
Definition hostedBackend (config : BundleBridgeConfig.t) : bool :=
  JsString.truthy (BundleBridgeConfig.apiKey config)
  && JsString.truthy (BundleBridgeConfig.apiUrl config).

(** [config.cacheTtl ? config.cacheTtl * 1000 : undefined]. *)
Definition ttlOf (config : BundleBridgeConfig.t) : option Z :=
  match BundleBridgeConfig.cacheTtl config with
  | Some seconds => if bool_decide (seconds = 0) then None else Some (seconds * 1000)
  | None => None
  end.

(** [config.enableCache !== false]. *)
Definition cacheEnabled (config : BundleBridgeConfig.t) : bool :=
  negb (bool_decide (BundleBridgeConfig.enableCache config = Some false)).

Definition resolveBundle (memoryCache : BundleCache.t) (clock : ResolveClock.t)
    (bundleId : string) (config : BundleBridgeConfig.t)
    (options : option ResolveOptions.t)
    : (Thrown + BundleDefinition.t) * BundleCache.t :=
  let skipCache := default false (options ≫= ResolveOptions.skipCache) in
  let '(cached, memoryCache) :=
    if cacheEnabled config && negb skipCache
    then Cache.getCachedDefinition memoryCache bundleId (ResolveClock.atLookup clock)
    else (None, memoryCache) in
  match cached with
  | Some definition => (inr definition, memoryCache)
  | None =>
      let resolved :=
        if hostedBackend config then resolveFromBackend bundleId config
        else resolveFromStorefrontApi bundleId config in
      match resolved with
      | inl error => (inl error, memoryCache)
      | inr definition =>
          (inr definition,
           if cacheEnabled config
           then Cache.cacheDefinition memoryCache bundleId definition (ttlOf config)
                  (ResolveClock.atStore clock)
           else memoryCache)
      end
  end.

(** [isBundle]: any failure of the lookup answers [false]. *)
Definition isBundle (memoryCache : BundleCache.t) (clock : ResolveClock.t)
    (productId : string) (config : BundleBridgeConfig.t) : bool * BundleCache.t :=
  match resolveBundle memoryCache clock productId config None with
  | (inr _, memoryCache) => (true, memoryCache)
  | (inl _, memoryCache) => (false, memoryCache)
  end.

End WithNetwork.
End ResolveBundleCall.

(** ** sdk/calculatePrice.ts: the cached calculation *)

Module PriceOptions.
Record t := mk {
  selectedComponents : option (list BundleSelection.t);
  skipCache : option bool }.
End PriceOptions.

(** The readings of [Date.now()] during one [calculateBundlePrice]. *)
Module PriceClock.
Record t := mk { atLookup : Z; resolving : ResolveClock.t; atStore : Z }.
End PriceClock.

Module CalculateBundlePrice.
Section WithNetwork.

Variable parseFloat : string → Qc.
Variable fetch : ProductRequest.t → ProductFetchOutcome.
Variable resolveFromBackend :
  string → BundleBridgeConfig.t → Thrown + BundleDefinition.t.

(** The hosted backend as [calculatePriceFromBackend] reports it. *)
Variable calculatePriceFromBackend :
  string → BundleBridgeConfig.t → option (list BundleSelection.t)
  → Thrown + BundlePriceResult.t.

(** [selectedComponents?.map((s) => ({ variantId, quantity }))]. *)
Definition keySelections (selectedComponents : option (list BundleSelection.t))
    : option (list KeySelection.t) :=
  match selectedComponents with
  | Some selections =>
      Some ((λ s, KeySelection.mk (BundleSelection.variantId s)
                    (BundleSelection.quantity s)) <$> selections)
  | None => None
  end.

Definition calculateBundlePrice (memoryCache : BundleCache.t) (clock : PriceClock.t)
    (bundleIdOrDefinition : string + BundleDefinition.t)
    (config : BundleBridgeConfig.t) (options : option PriceOptions.t)
    : (Thrown + BundlePriceResult.t) * BundleCache.t :=
  let bundleId :=
    match bundleIdOrDefinition with
    | inl bundleId => bundleId
    | inr definition => BundleDefinition.id definition
    end in
  let selectedComponents := options ≫= PriceOptions.selectedComponents in
  let skipCache := default false (options ≫= PriceOptions.skipCache) in
  let '(cached, memoryCache) :=
    if negb skipCache
    then Cache.getCachedPrice memoryCache bundleId (keySelections selectedComponents)
           (PriceClock.atLookup clock)
    else (None, memoryCache) in
  match cached with
  | Some price => (inr price, memoryCache)
  | None =>
      let '(priceResult, memoryCache) :=
        if ResolveBundleCall.hostedBackend config then
          (calculatePriceFromBackend bundleId config selectedComponents, memoryCache)
        else
          let '(definition, memoryCache) :=
            match bundleIdOrDefinition with
            | inl bundleId =>
                ResolveBundleCall.resolveBundle parseFloat fetch resolveFromBackend
                  memoryCache (PriceClock.resolving clock) bundleId config None
            | inr definition => (inr definition, memoryCache)
            end in
          (match definition with
           | inl error => inl error
           | inr definition =>
               inr (CalculatePrice.calculatePriceFromDefinition parseFloat definition
                      selectedComponents)
           end, memoryCache) in
      match priceResult with
      | inl error => (inl error, memoryCache)
      | inr price =>
          (inr price,
           Cache.cachePrice memoryCache bundleId price (keySelections selectedComponents)
             None (PriceClock.atStore clock))
      end
  end.

End WithNetwork.
End CalculateBundlePrice.

(** * Properties *)

(** ** Fixtures: the bundles of the repository's test suite *)

Module Fixtures.

Definition variant (id price : string) : BundleComponentVariant.t :=
  BundleComponentVariant.mk id "Default" (Money.mk price "USD")
    None None true None None None.

Definition component (productId title handle : string)
    (variants : list BundleComponentVariant.t) (defaultVariantId : option string)
    (quantity : Z) : BundleComponent.t :=
  BundleComponent.mk productId title handle None variants defaultVariantId
    quantity None None None None None.

Definition p1 : BundleComponent.t :=
  component "p1" "Product 1" "product-1" [variant "v1" "10.00"] (Some "v1") 2.
Definition p2 : BundleComponent.t :=
  component "p2" "Product 2" "product-2" [variant "v2" "15.00"] (Some "v2") 1.

Definition pricing (discountType : BundleDiscountType) (discountValue : option Qc)
    : BundlePricing.t :=
  BundlePricing.mk discountType discountValue None None None None None.

Definition bundle (id : string) (bundleType : BundleType)
    (components : list BundleComponent.t) (pricing : BundlePricing.t)
    (minSelections maxSelections : option Z) : BundleDefinition.t :=
  BundleDefinition.mk id "Test Bundle" "test-bundle" None bundleType components
    pricing minSelections maxSelections None true None.

(** [fixedBundle] of [buildCartMutation.test.ts]. *)
Definition fixedBundle : BundleDefinition.t :=
  bundle "gid://shopify/Product/100" fixed [p1; p2]
    (pricing percentage (Some (Qc_of_Z 10))) None None.

(** [mixAndMatchBundle] of [validation.test.ts], with the bounds left open. *)
Definition mixAndMatchBundle (minSelections maxSelections : option Z)
    : BundleDefinition.t :=
  bundle "gid://shopify/Product/2" mix_and_match
    [ component "p1" "Product 1" "product-1" [variant "v1" "10.00"] None 1;
      component "p2" "Product 2" "product-2" [variant "v2" "15.00"] None 1 ]
    (pricing percentage (Some (Qc_of_Z 10))) minSelections maxSelections.

Definition input (selectedComponents : option (list BundleSelection.t))
    (quantity : option Z) (customAttributes : option (list (string * string)))
    : AddBundleInput.t :=
  AddBundleInput.mk "gid://shopify/Product/100" selectedComponents quantity
    None customAttributes.

(** A line of a cart read back from the API, with its bundle tags. *)
Definition cartLine (id : string) (quantity : Z) (attributes : list (string * string))
    (merchandiseId : string) : CartLine.t :=
  CartLine.mk id quantity ((λ kv, Attribute.mk kv.1 kv.2) <$> attributes)
    merchandiseId "Variant" "Product".

Definition line1 : CartLine.t :=
  cartLine "line-1" 2 [("_bundle_parent", "true"); ("_bundle_product_id", "bundle-A")] "v1".
Definition line2 : CartLine.t :=
  cartLine "line-2" 1 [("_bundle_parent", "true"); ("_bundle_product_id", "bundle-A")] "v2".
Definition line3 : CartLine.t :=
  cartLine "line-3" 1 [("_bundle_parent", "true"); ("_bundle_product_id", "bundle-B")] "v3".
Definition plainLine : CartLine.t :=
  cartLine "line-4" 1 [("color", "blue")] "v4".

(** A built line with the given attributes. *)
Definition lineWith (attributes : list (string * string)) : CartLineInput.t :=
  CartLineInput.mk "v1" 1 ((λ kv, Attribute.mk kv.1 kv.2) <$> attributes).

(** A reading of [parseFloat] on plain decimal numerals: an optional sign,
    digits, and an optional fraction; it stops at the first character that
    does not belong to the numeral.  (On a string that starts with no
    numeral JavaScript answers [NaN]; the fixtures contain none.) *)
Definition digitOf (c : ascii) : option Z :=
  let n := Z.of_N (N_of_ascii c) in
  if bool_decide (48 ≤ n ≤ 57) then Some (n - 48) else None.

Fixpoint readFraction (s : string) (num den : Z) : Z * Z :=
  match s with
  | String c rest =>
      match digitOf c with
      | Some d => readFraction rest (num * 10 + d) (den * 10)
      | None => (num, den)
      end
  | EmptyString => (num, den)
  end.

Fixpoint readDigits (s : string) (num : Z) : Z * Z :=
  match s with
  | String c rest =>
      match digitOf c with
      | Some d => readDigits rest (num * 10 + d)
      | None => if bool_decide (c = "."%char) then readFraction rest num 1
                else (num, 1)
      end
  | EmptyString => (num, 1)
  end.

Definition parseFloat (s : string) : Qc :=
  let '(neg, body) :=
    match s with
    | String "-"%char rest => (true, rest)
    | String "+"%char rest => (false, rest)
    | _ => (false, s)
    end in
  let '(num, den) := readDigits body 0 in
  let q := Q2Qc (Qmake num (Z.to_pos den)) in
  if neg then (- q)%Qc else q.


(** A raw storefront product whose single variant, priced [price], bundles
    two units of a $10.00 item and one unit of a $15.00 item. *)
Definition storefrontProduct (price : string) : StorefrontProduct.t :=
  StorefrontProduct.mk "gid://shopify/Product/100" "Test Bundle" "test-bundle"
    None true None
    [ StorefrontVariant.mk "gid://shopify/ProductVariant/1" "Default"
        (Money.mk price "USD") None true
        (Some [ StorefrontBundleComponent.mk
                  (StorefrontComponentProduct.mk "p1" "Product 1" "product-1" None)
                  (variant "v1" "10.00") 2;
                StorefrontBundleComponent.mk
                  (StorefrontComponentProduct.mk "p2" "Product 2" "product-2" None)
                  (variant "v2" "15.00") 1 ]) ]
    None None.



Definition now : string := "2026-01-01T00:00:00.000Z".

End Fixtures.

(** ** Vocabulary of the statements *)

Module Vocabulary.
Import BuildCartMutation.

(** A line the grouping files under bundle [B]: it passes [isBundleLine]
    and [getBundleInfoFromLine] reads [B] as its bundle product id. *)
Definition tagged `{HasAttributes L} (B : string) (line : L) : Prop :=
  isBundleLine line = true
  ∧ BundleLineAttributes._bundleProductId (getBundleInfoFromLine line) = Some B.


(** A selection the price loop skips: no component has its product id, or
    the first component that has it lacks the variant. *)
Definition unmatched (definition : BundleDefinition.t)
    (selection : BundleSelection.t) : Prop :=
  match find (λ c, bool_decide (BundleComponent.productId c
                                = BundleSelection.productId selection))
             (BundleDefinition.components definition) with
  | None => True
  | Some component =>
      find (λ v, bool_decide (BundleComponentVariant.id v
                              = BundleSelection.variantId selection))
           (BundleComponent.variants component) = None
  end.


End Vocabulary.

(** ** Vocabulary of the statements about the calls, the cache and the
    identifiers *)

Module Notions.
Import BuildCartMutation.

(** The value of the last attribute with a given key. *)
Definition lastValue (key : string) (attributes : list Attribute.t) : option string :=
  Attribute.value <$> list.last (filter (λ a, Attribute.key a = key) attributes).

(** The lines of a cart that carry the bundle flag and read [B] as their
    bundle product id, in cart order. *)
Definition members `{HasAttributes L} (B : string) (lines : list L) : list L :=
  filter (λ line, isBundleLine line = true
                  ∧ BundleLineAttributes._bundleProductId (getBundleInfoFromLine line)
                    = Some B) lines.

(** A line the grouping keeps: flagged, with a bundle id that is not empty. *)
Definition grouped `{HasAttributes L} (line : L) : bool :=
  isBundleLine line
  && match BundleLineAttributes._bundleProductId (getBundleInfoFromLine line) with
     | Some B => negb (bool_decide (B = ""))
     | None => false
     end.

(** The bundle passes the validation gate of [addBundleToCart]. *)
Definition passesGate (definition : BundleDefinition.t) (input : AddBundleInput.t)
    : Prop :=
  BundleDefinition.bundleType definition = mix_and_match →
  ValidationResult.valid
    (Validation.validateBundleSelection definition
       (default [] (AddBundleInput.selectedComponents input))) = true.

Definition tokenMissing : string :=
  "storefrontAccessToken is required for cart operations".

(** The request [addBundleToCart] sends for its lines: they are added to
    the cart of the input when it names one, else a cart is created. *)
Definition cartRequestOf (config : BundleBridgeConfig.t) (token : string)
    (input : AddBundleInput.t) (lines : list CartLineInput.t) : CartRequest.t :=
  if JsString.truthy (AddBundleInput.cartId input)
  then CartMutationCall.requestOf config token CART_LINES_ADD_MUTATION
         (LinesAddVariables (default "" (AddBundleInput.cartId input)) lines)
  else CartMutationCall.requestOf config token CART_CREATE_MUTATION
         (CreateVariables lines).

(** [options?.skipCache], read as a condition. *)
Definition skips (skipCache : option bool) : bool := default false skipCache.

(** The bundle id [calculateBundlePrice] keys its cache with. *)
Definition bundleIdOf (bundleIdOrDefinition : string + BundleDefinition.t) : string :=
  match bundleIdOrDefinition with
  | inl bundleId => bundleId
  | inr definition => BundleDefinition.id definition
  end.

(** Every character of a string is a word character. *)
Fixpoint allWordChars (s : string) : bool :=
  match s with
  | EmptyString => true
  | String c rest => Gid.isWordChar c && allWordChars rest
  end.

(** The amount a line of the price breakdown stands for: its unit price
    times its quantity. *)
Definition lineAmount (parseFloat : string → Qc) (line : ComponentPrice.t) : Qc :=
  (parseFloat (Money.amount (ComponentPrice.unitPrice line))
   * Qc_of_Z (ComponentPrice.quantity line))%Qc.

Definition sumQc (amounts : list Qc) : Qc := foldr Qcplus 0%Qc amounts.

(** The accumulator of the two price loops is balanced when its total is
    the sum of the lines pushed so far and every line total is the
    formatted amount of its line. *)
Definition balanced (parseFloat : string → Qc) (acc : list ComponentPrice.t * Qc)
    : Prop :=
  acc.2 = sumQc (lineAmount parseFloat <$> acc.1)
  ∧ Forall (λ line, Money.amount (ComponentPrice.lineTotal line)
                    = Js.toFixed2 (lineAmount parseFloat line)) acc.1.

(** A storefront variant that carries no bundle components. *)
Definition plain (v : StorefrontVariant.t) : Prop :=
  StorefrontVariant.bundleComponents v = None
  ∨ StorefrontVariant.bundleComponents v = Some [].

End Notions.

(** ** More fixtures: a storefront, a backend and a cache *)

Module Scenarios.

Definition selection (productId variantId : string) (quantity : Z)
    : BundleSelection.t :=
  BundleSelection.mk productId variantId quantity.

(** A cart with two bundles and a plain line in between. *)
Definition cartLines : list CartLine.t :=
  [ Fixtures.line1; Fixtures.plainLine; Fixtures.line2; Fixtures.line3 ].

(** A reading of [parseInt(s, 10)] on unsigned numerals: the leading digits,
    [NaN] when there is none.  (The signs and leading blanks JavaScript
    accepts do not occur in the fixtures.) *)
Fixpoint readInt (s : string) (num : Z) : Z :=
  match s with
  | String c rest =>
      match Fixtures.digitOf c with
      | Some d => readInt rest (num * 10 + d)
      | None => num
      end
  | EmptyString => num
  end.

Definition parseInt (s : string) : option Z :=
  match s with
  | String c _ => if Gid.isDigit c then Some (readInt s 0) else None
  | EmptyString => None
  end.

Definition config (storefrontAccessToken : option string)
    (enableCache : option bool) : BundleBridgeConfig.t :=
  BundleBridgeConfig.mk None None "test.myshopify.com" storefrontAccessToken None
    enableCache None.

Definition hostedConfig : BundleBridgeConfig.t :=
  BundleBridgeConfig.mk (Some "https://api.example.com") (Some "key")
    "test.myshopify.com" None None None None.

Definition cart : Cart.t :=
  Cart.mk "gid://shopify/Cart/1" [] (Money.mk "31.50" "USD").

(** A storefront that creates the cart it is asked for. *)
Definition accepting (request : CartRequest.t) : FetchOutcome :=
  FetchResolved true 200
    (inr (CartResponseBody.mk None
            (Some (CartData.mk (Some (CartPayload.mk (Some cart) (Some []))) None)))).

(** A user error that points at the second line. *)
Definition userError : CartUserError.t :=
  CartUserError.mk (Some ["lines"; "1"; "merchandiseId"]) "Variant is sold out"
    "INVALID".

(** A network that is down, for each of the services. *)
Definition offline (request : ProductRequest.t) : ProductFetchOutcome :=
  ProductFetchRejected (ThrownError "Failed to fetch").

Definition backendDown (bundleId : string) (config : BundleBridgeConfig.t)
    : Thrown + BundleDefinition.t :=
  inl (ThrownError "Failed to fetch").

Definition priceBackendDown (bundleId : string) (config : BundleBridgeConfig.t)
    (selectedComponents : option (list BundleSelection.t))
    : Thrown + BundlePriceResult.t :=
  inl (ThrownError "Failed to fetch").

(** A hosted backend that knows the fixed bundle. *)
Definition backend (bundleId : string) (config : BundleBridgeConfig.t)
    : Thrown + BundleDefinition.t :=
  inr Fixtures.fixedBundle.

Definition emptyCache : BundleCache.t := Cache.clearAllCache.

(** The variant of [Fixtures.storefrontProduct] that carries the bundle. *)
Definition bundleVariant (price : string) : StorefrontVariant.t :=
  StorefrontVariant.mk "gid://shopify/ProductVariant/1" "Default"
    (Money.mk price "USD") None true
    (Some [ StorefrontBundleComponent.mk
              (StorefrontComponentProduct.mk "p1" "Product 1" "product-1" None)
              (Fixtures.variant "v1" "10.00") 2;
            StorefrontBundleComponent.mk
              (StorefrontComponentProduct.mk "p2" "Product 2" "product-2" None)
              (Fixtures.variant "v2" "15.00") 1 ]).

End Scenarios.

(** ** The tag codec and the cart-line builder *)

Section TagCodec.

Import BuildCartMutation Vocabulary.

Lemma existsb_elem_of {A} (p : A → bool) (l : list A) :
  existsb p l = true ↔ ∃ x, x ∈ l ∧ p x = true.
Proof.
  rewrite existsb_exists. split; intros (x & Hx & Hp); exists x;
    (split; [by apply list_elem_of_In | done]).
Qed.

(** C9. [isBundleLine] answers [true] exactly for the lines that carry an
    attribute with key [_bundle_parent] and value ["true"]; a line on
    which every attribute with that key has another value (["false"]
    among them), or which has no such attribute, gets [false]. *)
Theorem isBundleLine_iff `{HasAttributes L} (line : L) :
  (isBundleLine line = true ↔
     ∃ attr, attr ∈ attributesOf line
             ∧ Attribute.key attr = BUNDLE_ATTRIBUTES.bundleParent
             ∧ Attribute.value attr = "true")
  ∧ (isBundleLine line = false ↔
     ∀ attr, attr ∈ attributesOf line →
             Attribute.key attr = BUNDLE_ATTRIBUTES.bundleParent →
             Attribute.value attr ≠ "true").
Proof.
  assert (Hiff : isBundleLine line = true ↔
     ∃ attr, attr ∈ attributesOf line
             ∧ Attribute.key attr = BUNDLE_ATTRIBUTES.bundleParent
             ∧ Attribute.value attr = "true").
  { unfold isBundleLine. rewrite existsb_elem_of.
    split; intros (attr & Hin & Hp); exists attr.
    - apply andb_prop in Hp as [Hk Hv].
      by apply bool_decide_eq_true in Hk, Hv.
    - destruct Hp as [Hk Hv]. split; [done|].
      apply andb_true_intro; split; by apply bool_decide_eq_true. }
  split; [exact Hiff|].
  rewrite <-not_true_iff_false, Hiff. split.
  - intros Hno attr Hin Hk Hv. apply Hno. by exists attr.
  - intros Hall (attr & Hin & Hk & Hv). by apply (Hall attr).
Qed.

Lemma isBundleLine_iff_witness :
  isBundleLine (Fixtures.lineWith [("_bundle_parent", "true")]) = true
  ∧ isBundleLine (Fixtures.lineWith [("_bundle_parent", "false")]) = false
  ∧ isBundleLine (Fixtures.lineWith [("color", "blue"); ("other", "true")]) = false
  ∧ isBundleLine (Fixtures.lineWith []) = false.
Proof.
  split; [|split; [|split]].
  - apply (proj1 (isBundleLine_iff _)). eexists. split; [left|]. by split.
  - apply (proj2 (isBundleLine_iff _)). intros attr Hin _ Hv.
    vm_compute in Hin. apply list_elem_of_singleton in Hin. subst attr.
    discriminate.
  - apply (proj2 (isBundleLine_iff _)). intros attr Hin Hk _.
    vm_compute in Hin.
    apply elem_of_cons in Hin as [-> | Hin]; [discriminate|].
    apply list_elem_of_singleton in Hin. subst attr. discriminate.
  - apply (proj2 (isBundleLine_iff _)). intros attr Hin.
    vm_compute in Hin. by apply elem_of_nil in Hin.
Defined.

Lemma BundleSelection_eta (s : BundleSelection.t) :
  BundleSelection.mk (BundleSelection.productId s) (BundleSelection.variantId s)
    (BundleSelection.quantity s) = s.
Proof. by destruct s. Qed.

Lemma componentsToAdd_selected definition s rest :
  componentsToAdd definition (Some (s :: rest)) = Some (s :: rest).
Proof.
  unfold componentsToAdd. f_equal.
  rewrite <-(list_fmap_id (s :: rest)) at 2.
  apply list_fmap_ext. intros _ x _. apply BundleSelection_eta.
Qed.

Lemma componentsToAdd_defaults definition selected comps :
  selected = None ∨ selected = Some [] →
  componentsToAdd definition selected = Some comps →
  Forall2 (λ c r, ∃ v, defaultVariantIdOf c = Some v
                       ∧ r = BundleSelection.mk (BundleComponent.productId c) v
                               (BundleComponent.quantity c))
    (BundleDefinition.components definition) comps.
Proof.
  intros Hsel Hc.
  assert (Hm : mapM (λ c, variantId ← defaultVariantIdOf c;
                 Some (BundleSelection.mk (BundleComponent.productId c)
                         variantId (BundleComponent.quantity c)))
           (BundleDefinition.components definition) = Some comps).
  { by destruct Hsel as [-> | ->]. }
  apply mapM_Some_1 in Hm. eapply Forall2_impl; [|exact Hm].
  intros c r Hr. simpl in Hr.
  destruct (defaultVariantIdOf c) as [v|]; [|done].
  exists v. split; [done|]. by inversion Hr.
Qed.


(** [buildBundleCartLines] returns its lines whenever the components
    resolve: always on a non-empty selection, and on the defaults as soon
    as every component has a default or a first variant.  Otherwise the
    [TypeError] of the missing variant leaves it without a result. *)
Lemma buildBundleCartLines_returns definition input :
  (∃ s rest, AddBundleInput.selectedComponents input = Some (s :: rest))
  ∨ Forall (λ c, is_Some (defaultVariantIdOf c))
      (BundleDefinition.components definition) →
  is_Some (buildBundleCartLines definition input).
Proof.
  intros Hres.
  assert (Hc : is_Some (componentsToAdd definition
                          (AddBundleInput.selectedComponents input))).
  { destruct Hres as [(s & rest & ->) | Hall].
    - rewrite componentsToAdd_selected. by eexists.
    - assert (Hm : is_Some (mapM (λ c, variantId ← defaultVariantIdOf c;
                   Some (BundleSelection.mk (BundleComponent.productId c)
                           variantId (BundleComponent.quantity c)))
             (BundleDefinition.components definition))).
      { apply mapM_is_Some. revert Hall. apply List.Forall_impl.
        intros c [v Hv]. simpl. rewrite Hv. by eexists. }
      destruct (AddBundleInput.selectedComponents input) as [[|s rest]|];
        [exact Hm | rewrite componentsToAdd_selected; by eexists | exact Hm]. }
  destruct Hc as [comps Hc]. unfold buildBundleCartLines. rewrite Hc. by eexists.
Qed.



Lemma getBundleInfo_keeps_id B custom acc :
  BundleLineAttributes._bundleProductId acc = Some B →
  (∀ attr, attr ∈ custom →
     Attribute.key attr = BUNDLE_ATTRIBUTES.bundleProductId →
     Attribute.value attr = B) →
  BundleLineAttributes._bundleProductId (foldl getBundleInfoStep acc custom) = Some B.
Proof.
  revert acc. induction custom as [|attr custom IH]; intros acc Hacc Hall; [done|].
  simpl. apply IH.
  - unfold getBundleInfoStep. repeat case_bool_decide; simpl; try done.
    f_equal. apply Hall; [left | done].
  - intros a Ha. apply Hall. by right.
Qed.

Lemma groupStep_first `{HasAttributes L} B (line : L) :
  B ≠ "" → tagged B line →
  groupStep ∅ line = {[ B := mkGroup B [line] ]}.
Proof.
  intros HB [Hb Hid]. unfold groupStep. rewrite Hb, Hid. simpl.
  rewrite bool_decide_eq_false_2 by done.
  rewrite lookup_empty. rewrite alter_insert_eq. simpl. done.
Qed.

Lemma groupStep_next `{HasAttributes L} B (line : L) acc :
  B ≠ "" → tagged B line →
  groupStep {[ B := mkGroup B acc ]} line = {[ B := mkGroup B (acc ++ [line]) ]}.
Proof.
  intros HB [Hb Hid]. unfold groupStep. rewrite Hb, Hid. simpl.
  rewrite bool_decide_eq_false_2 by done.
  rewrite lookup_singleton_eq. by rewrite alter_singleton_eq.
Qed.

Lemma group_tagged_from `{HasAttributes L} B (lines : list L) acc :
  B ≠ "" → Forall (tagged B) lines →
  foldl groupStep {[ B := mkGroup B acc ]} lines
    = {[ B := mkGroup B (acc ++ lines) ]}.
Proof.
  intros HB. revert acc.
  induction lines as [|line lines IH]; intros acc Hall.
  - by rewrite app_nil_r.
  - inversion_clear Hall as [|?? Hline Hrest]. simpl.
    rewrite (groupStep_next B) by done. rewrite IH by done.
    by rewrite <-app_assoc.
Qed.

Lemma group_tagged `{HasAttributes L} B (lines : list L) :
  B ≠ "" → lines ≠ [] → Forall (tagged B) lines →
  groupCartLinesByBundle lines = {[ B := mkGroup B lines ]}.
Proof.
  intros HB Hne Hall. destruct lines as [|line lines]; [done|].
  inversion_clear Hall as [|?? Hline Hrest].
  unfold groupCartLinesByBundle. simpl.
  rewrite (groupStep_first B) by done. by rewrite group_tagged_from.
Qed.

(** The grouping cases of the test suite: two bundles interleaved with a
    plain line, and the empty cart. *)
Lemma groupCartLinesByBundle_test_suite :
  groupCartLinesByBundle
    [Fixtures.line1; Fixtures.plainLine; Fixtures.line3; Fixtures.line2]
  = {[ "bundle-A" := mkGroup "bundle-A" [Fixtures.line1; Fixtures.line2];
       "bundle-B" := mkGroup "bundle-B" [Fixtures.line3] ]}
  ∧ groupCartLinesByBundle [Fixtures.plainLine] = ∅
  ∧ groupCartLinesByBundle (@nil CartLine.t) = ∅.
Proof. repeat split; by vm_compute. Qed.

Lemma getBundleInfo_built B i n p :
  foldl getBundleInfoStep (BundleLineAttributes.mk None None None None)
    (buildBundleAttributes B i n p)
  = BundleLineAttributes.mk (Some "true") None (Some B)
      (Some (Js.String (Z.of_nat i))).
Proof. reflexivity. Qed.

Lemma built_line_tagged B i n p custom merchandiseId quantity :
  (∀ attr, attr ∈ custom →
     Attribute.key attr = BUNDLE_ATTRIBUTES.bundleProductId →
     Attribute.value attr = B) →
  tagged B (CartLineInput.mk merchandiseId quantity
              (buildBundleAttributes B i n p ++ custom)).
Proof.
  intros Hcustom. split; [reflexivity|].
  unfold getBundleInfoFromLine, attributesOf, CartLineInput_attributes.
  cbn [CartLineInput.attributes].
  rewrite foldl_app, getBundleInfo_built.
  by apply getBundleInfo_keeps_id.
Qed.

Lemma componentsToAdd_nonempty definition selected comps :
  BundleDefinition.components definition ≠ [] →
  componentsToAdd definition selected = Some comps → comps ≠ [].
Proof.
  intros Hne Hc.
  destruct selected as [[|s rest]|].
  - apply componentsToAdd_defaults in Hc; [|by right].
    intros ->. apply Forall2_nil_inv_r in Hc. done.
  - rewrite componentsToAdd_selected in Hc. by inversion Hc.
  - apply componentsToAdd_defaults in Hc; [|by left].
    intros ->. apply Forall2_nil_inv_r in Hc. done.
Qed.

(** C1 (amended). For a definition with a non-empty id [B] and at least one
    component, and an input whose custom attributes do not set
    [_bundle_product_id] to anything but [B]: whenever
    [buildBundleCartLines] returns its lines, [groupCartLinesByBundle] of
    these lines is the map with the single key [B], whose group lists
    exactly the built lines (one per component when nothing is selected) in
    the order they were built, line [i] carrying the component index
    [String(i)]. *)
Theorem group_build_round_trip definition input lines :
  BundleDefinition.id definition ≠ "" →
  (∀ attr, attr ∈ customAttributesOf input →
     Attribute.key attr = BUNDLE_ATTRIBUTES.bundleProductId →
     Attribute.value attr = BundleDefinition.id definition) →
  BundleDefinition.components definition ≠ [] →
  buildBundleCartLines definition input = Some lines →
  lines ≠ []
  ∧ (AddBundleInput.selectedComponents input = None
     ∨ AddBundleInput.selectedComponents input = Some [] →
     length lines = length (BundleDefinition.components definition))
  ∧ groupCartLinesByBundle lines
    = {[ BundleDefinition.id definition
         := mkGroup (BundleDefinition.id definition) lines ]}
  ∧ ∀ (i : nat) line, lines !! i = Some line →
      find (λ a, bool_decide (Attribute.key a = BUNDLE_ATTRIBUTES.componentIndex))
           (CartLineInput.attributes line)
      = Some (Attribute.mk BUNDLE_ATTRIBUTES.componentIndex (Js.String (Z.of_nat i))).
Proof.
  intros HB Hcustom Hne Hbuild.
  unfold buildBundleCartLines in Hbuild.
  destruct (componentsToAdd definition (AddBundleInput.selectedComponents input))
    as [comps|] eqn:Hc; [|done].
  simpl in Hbuild. injection Hbuild as <-.
  assert (Hlines : imap (λ index component,
          CartLineInput.mk
            (BundleSelection.variantId component)
            (BundleSelection.quantity component * default 1 (AddBundleInput.quantity input))
            (buildBundleAttributes (BundleDefinition.id definition) index
               (length comps) (BundleSelection.productId component)
             ++ customAttributesOf input)) comps ≠ []).
  { intros Hnil. apply (f_equal length) in Hnil. rewrite length_imap in Hnil.
    apply (componentsToAdd_nonempty _ _ _ Hne Hc). by apply nil_length_inv. }
  split; [exact Hlines|]. split; [|split].
  - intros Hsel. rewrite length_imap. symmetry.
    eapply Forall2_length, componentsToAdd_defaults; [exact Hsel | exact Hc].
  - apply group_tagged; [done|exact Hlines|].
    apply Forall_lookup. intros i line Hi.
    apply list_lookup_imap_Some in Hi as (c & _ & ->).
    by apply built_line_tagged.
  - intros i line Hi.
    apply list_lookup_imap_Some in Hi as (c & _ & ->). reflexivity.
Qed.

Lemma group_build_round_trip_witness :
  let input := Fixtures.input None (Some 3) (Some [("gift_note", "Happy Birthday!")]) in
  ∃ lines,
    buildBundleCartLines Fixtures.fixedBundle input = Some lines
    ∧ length lines = 2%nat
    ∧ groupCartLinesByBundle lines
      = {[ "gid://shopify/Product/100"
           := mkGroup "gid://shopify/Product/100" lines ]}.
Proof.
  eexists. split; [reflexivity|]. split; [reflexivity|].
  refine (proj1 (proj2 (proj2 (group_build_round_trip Fixtures.fixedBundle
    (Fixtures.input None (Some 3) (Some [("gift_note", "Happy Birthday!")]))
    _ _ _ _ eq_refl)))).
  - discriminate.
  - intros attr Hin Hk. apply list_elem_of_singleton in Hin. subst attr. discriminate.
  - discriminate.
Defined.

Lemma group_build_round_trip_counterexample :
  (let definition := Fixtures.fixedBundle in
   let input := Fixtures.input None None (Some [("_bundle_product_id", "other")]) in
   BundleDefinition.components definition ≠ []
   ∧ ∃ lines, buildBundleCartLines definition input = Some lines
       ∧ groupCartLinesByBundle lines !! BundleDefinition.id definition = None
       ∧ groupCartLinesByBundle lines = {[ "other" := mkGroup "other" lines ]})
  ∧ (let definition :=
       Fixtures.bundle "" fixed [Fixtures.p1; Fixtures.p2]
         (Fixtures.pricing percentage None) None None in
     let input := Fixtures.input None None None in
     BundleDefinition.components definition ≠ []
     ∧ ∃ lines, buildBundleCartLines definition input = Some lines
         ∧ groupCartLinesByBundle lines = ∅).
Proof.
  split.
  - split; [discriminate|]. eexists. split; [reflexivity|].
    split; by vm_compute.
  - split; [discriminate|]. eexists. split; [reflexivity|]. by vm_compute.
Qed.

End TagCodec.

(** ** The inventory aggregator *)

Section Inventory.
Import CheckInventory Vocabulary.

Variable nodes : option (list (option InventoryNode.t)).












End Inventory.




(** ** The price calculator *)

Section Price.
Import CalculatePrice Vocabulary.

Variable parseFloat : string → Qc.




Lemma selectionStep_unmatched definition currencyCode acc selection :
  unmatched definition selection →
  selectionStep parseFloat definition currencyCode acc selection = acc.
Proof.
  unfold unmatched, selectionStep.
  destruct (find _ (BundleDefinition.components definition)) as [c|]; [|done].
  by intros ->.
Qed.

(** A product id that no component carries is one way to be skipped. *)
Lemma unmatched_no_component definition selection :
  (∀ c, c ∈ BundleDefinition.components definition →
        BundleComponent.productId c ≠ BundleSelection.productId selection) →
  unmatched definition selection.
Proof.
  intros Hno. unfold unmatched.
  destruct (find _ (BundleDefinition.components definition)) as [c|] eqn:Hfind;
    [|done].
  apply find_some in Hfind as [Hin Hc]. apply bool_decide_eq_true in Hc.
  destruct (Hno c); [by apply list_elem_of_In | done].
Qed.

Lemma priceLines_selected definition selections :
  selections ≠ [] →
  priceLines parseFloat definition (Some selections)
  = foldl (selectionStep parseFloat definition (currencyCodeOf definition))
      ([], 0%Qc) selections.
Proof. by destruct selections. Qed.

Lemma selection_loop_unmatched definition currencyCode selections acc :
  Forall (unmatched definition) selections →
  foldl (selectionStep parseFloat definition currencyCode) acc selections = acc.
Proof.
  revert acc. induction selections as [|s rest IH]; intros acc Hall; [done|].
  inversion_clear Hall as [|?? Hs Hrest]. simpl.
  rewrite selectionStep_unmatched by done. by apply IH.
Qed.

(** C10. A selection whose product id matches no component, or whose
    variant id matches no variant of the matched component, leaves the
    loop's accumulator (the breakdown and the running total) untouched;
    the price of a selection list is the price of the list without such an
    entry (as long as entries remain); and a non-empty list made of such
    entries only gives an empty breakdown and the original price ["0.00"].
    The calculation is a total function: nothing is raised. *)
Theorem unmatched_selection_skipped definition :
  (∀ currencyCode acc selection,
     unmatched definition selection →
     selectionStep parseFloat definition currencyCode acc selection = acc)
  ∧ (∀ before selection after,
       unmatched definition selection → before ++ after ≠ [] →
       calculatePriceFromDefinition parseFloat definition
         (Some (before ++ selection :: after))
       = calculatePriceFromDefinition parseFloat definition (Some (before ++ after)))
  ∧ (∀ selections,
       selections ≠ [] → Forall (unmatched definition) selections →
       let r := calculatePriceFromDefinition parseFloat definition (Some selections) in
       BundlePriceResult.componentPrices r = []
       ∧ Money.amount (BundlePriceResult.originalPrice r) = "0.00").
Proof.
  split; [|split].
  - intros currencyCode acc selection. apply selectionStep_unmatched.
  - intros before selection after Hs Hne.
    unfold calculatePriceFromDefinition, amountsOf.
    rewrite !priceLines_selected; [|done|by destruct before].
    rewrite !foldl_app. simpl. by rewrite selectionStep_unmatched.
  - intros selections Hne Hall r. subst r.
    unfold calculatePriceFromDefinition, amountsOf.
    rewrite priceLines_selected by done.
    rewrite selection_loop_unmatched by done. by split.
Qed.

End Price.

(** The pricing scenario of the specification: $10.00 x 2 and $15.00 x 1
    with a fixed amount of 5 off. *)
Lemma price_scenario_fixed_amount :
  let definition :=
    Fixtures.bundle "gid://shopify/Product/100" fixed [Fixtures.p1; Fixtures.p2]
      (Fixtures.pricing fixed_amount (Some (Qc_of_Z 5))) None None in
  let r := CalculatePrice.calculatePriceFromDefinition Fixtures.parseFloat definition None in
  Money.amount (BundlePriceResult.originalPrice r) = "35.00"
  ∧ Money.amount (BundlePriceResult.bundlePrice r) = "30.00"
  ∧ Money.amount (BundlePriceResult.savings r) = "5.00"
  ∧ BundlePriceResult.savingsPercentage r = Q2Qc (100 # 7)
  ∧ Money.amount <$> (ComponentPrice.lineTotal <$> BundlePriceResult.componentPrices r)
    = ["20.00"; "15.00"].
Proof.
  split; [by vm_compute|]. split; [by vm_compute|]. split; [by vm_compute|].
  split; [|by vm_compute]. apply Qc_is_canon. by vm_compute.
Qed.



Lemma unmatched_selection_skipped_witness :
  let r := CalculatePrice.calculatePriceFromDefinition Fixtures.parseFloat
             Fixtures.fixedBundle
             (Some [ BundleSelection.mk "p999" "v1" 1;
                     BundleSelection.mk "p1" "v999" 2 ]) in
  BundlePriceResult.componentPrices r = []
  ∧ Money.amount (BundlePriceResult.originalPrice r) = "0.00".
Proof.
  refine (proj2 (proj2 (unmatched_selection_skipped Fixtures.parseFloat
    Fixtures.fixedBundle)) _ _ _).
  - discriminate.
  - repeat constructor.
Defined.

(** ** The resolver *)

Section Resolve.
Import ResolveBundle.

Variable parseFloat : string → Qc.

Lemma originalPriceAmountOf_components nodes acc :
  is_Some (foldl (λ sum comp,
           sum ← sum;
           variant ← head (BundleComponent.variants comp);
           Some (sum + parseFloat (Money.amount (BundleComponentVariant.price variant))
                       * Qc_of_Z (BundleComponent.quantity comp))%Qc)
        (Some acc) (componentOf <$> nodes)).
Proof.
  revert acc. induction nodes as [|bc nodes IH]; intros acc; [by eexists|].
  simpl. apply IH.
Qed.

Lemma parseStorefrontResponse_returns product :
  is_Some (parseStorefrontResponse parseFloat product).
Proof.
  unfold parseStorefrontResponse.
  destruct (bundleVariantOf product) as [bundleVariant|]; [|by eexists].
  destruct (StorefrontVariant.bundleComponents bundleVariant) as [nodes|];
    [|by eexists].
  unfold savingsOf, originalPriceAmountOf.
  destruct (originalPriceAmountOf_components nodes 0%Qc) as [o ->].
  by eexists.
Qed.


End Resolve.


(** ** Selection validation *)

Section Validate.
Import Validation Vocabulary.






(** C8. On a definition of bundle type [fixed], [validateBundleSelection]
    answers [valid = true] (and no error) for every selection list. *)
Theorem validateBundleSelection_fixed definition selections :
  BundleDefinition.bundleType definition = fixed →
  validateBundleSelection definition selections = ok
  ∧ ValidationResult.valid (validateBundleSelection definition selections) = true.
Proof.
  intros Hfixed. unfold validateBundleSelection. by rewrite decide_True.
Qed.


End Validate.

Lemma validateBundleSelection_fixed_witness :
  ValidationResult.valid
    (Validation.validateBundleSelection Fixtures.fixedBundle
       [BundleSelection.mk "p999" "v999" (-3)]) = true.
Proof.
  exact (proj2 (validateBundleSelection_fixed Fixtures.fixedBundle
                  [BundleSelection.mk "p999" "v999" (-3)] eq_refl)).
Defined.



(** ** Reading the tags back: [getBundleInfoFromLine],
    [groupCartLinesByBundle] and [useBundleLines] *)

Section TagReader.

Import BuildCartMutation Notions.

Lemma lastValue_snoc key attributes a :
  lastValue key (attributes ++ [a])
  = if decide (Attribute.key a = key) then Some (Attribute.value a)
    else lastValue key attributes.
Proof.
  unfold lastValue. rewrite list.filter_app, list.filter_cons, list.filter_nil.
  case_decide; [|by rewrite app_nil_r].
  by rewrite last_snoc.
Qed.

(** X1. [getBundleInfoFromLine] reads, for each of the keys
    [_bundle_parent], [_bundle_product_id] and [_bundle_component_index],
    the value of the last attribute of the line that has the key (nothing
    when there is none), and never sets [_bundleComponentOf]. *)
Theorem getBundleInfoFromLine_last `{HasAttributes L} (line : L) :
  let info := getBundleInfoFromLine line in
  BundleLineAttributes._bundleParent info
  = lastValue BUNDLE_ATTRIBUTES.bundleParent (attributesOf line)
  ∧ BundleLineAttributes._bundleProductId info
    = lastValue BUNDLE_ATTRIBUTES.bundleProductId (attributesOf line)
  ∧ BundleLineAttributes._bundleComponentIndex info
    = lastValue BUNDLE_ATTRIBUTES.componentIndex (attributesOf line)
  ∧ BundleLineAttributes._bundleComponentOf info = None.
Proof.
  unfold getBundleInfoFromLine. simpl.
  induction (attributesOf line) as [|a attributes IH] using rev_ind; [done|].
  rewrite foldl_snoc, !lastValue_snoc.
  destruct IH as (IH1 & IH2 & IH3 & IH4).
  unfold getBundleInfoStep, BUNDLE_ATTRIBUTES.bundleParent,
    BUNDLE_ATTRIBUTES.bundleProductId, BUNDLE_ATTRIBUTES.componentIndex in *.
  repeat case_bool_decide; repeat case_decide; simpl;
    first [congruence | by repeat split].
Qed.

Lemma groupStep_lookup `{HasAttributes L} (groups : gmap string (BundleGroup L))
    (line : L) B :
  groupStep groups line !! B
  = if decide (B ≠ "" ∧ isBundleLine line = true
               ∧ BundleLineAttributes._bundleProductId (getBundleInfoFromLine line)
                 = Some B)
    then match groups !! B with
         | Some g => Some (mkGroup (bundleProductId g) (lines g ++ [line]))
         | None => Some (mkGroup B [line])
         end
    else groups !! B.
Proof.
  unfold groupStep.
  destruct (isBundleLine line) eqn:Hb; simpl.
  2:{ rewrite decide_False; [done|]. intros (_ & ? & _). done. }
  destruct (BundleLineAttributes._bundleProductId (getBundleInfoFromLine line))
    as [B'|] eqn:Hid.
  2:{ rewrite decide_False; [done|]. intros (_ & _ & ?). done. }
  case_bool_decide as HB'.
  { subst B'. rewrite decide_False; [done|]. intros (? & _ & [= <-]). done. }
  destruct (decide (B' = B)) as [->|Hne].
  - rewrite decide_True by done. rewrite lookup_alter_eq.
    destruct (groups !! B) as [g|] eqn:Hg.
    + by rewrite Hg.
    + by rewrite lookup_insert_eq.
  - rewrite decide_False by (intros (_ & _ & [= ?]); done).
    rewrite lookup_alter_ne by done.
    destruct (groups !! B'); [done|]. by rewrite lookup_insert_ne.
Qed.

Lemma members_cons `{HasAttributes L} B (line : L) cart :
  members B (line :: cart)
  = if decide (isBundleLine line = true
               ∧ BundleLineAttributes._bundleProductId (getBundleInfoFromLine line)
                 = Some B)
    then line :: members B cart else members B cart.
Proof. unfold members. by rewrite list.filter_cons. Qed.

Lemma group_loop_lookup `{HasAttributes L} (cart : list L)
    (groups : gmap string (BundleGroup L)) B :
  B ≠ "" →
  foldl groupStep groups cart !! B
  = match groups !! B with
    | Some g => Some (mkGroup (bundleProductId g) (lines g ++ members B cart))
    | None => if decide (members B cart = []) then None
              else Some (mkGroup B (members B cart))
    end.
Proof.
  intros HB. revert groups.
  induction cart as [|line cart IH]; intros groups.
  - simpl. destruct (groups !! B) as [[b ls]|]; [|done]. simpl. by rewrite app_nil_r.
  - simpl. rewrite IH, groupStep_lookup, members_cons.
    destruct (decide (isBundleLine line = true ∧ _)) as [Ht|Ht].
    + rewrite decide_True by (split; [done|exact Ht]).
      destruct (groups !! B) as [g|]; simpl.
      * by rewrite <-app_assoc.
      * by case_decide.
    + rewrite decide_False by (intros (_ & ?); apply Ht; done). done.
Qed.

Lemma group_lookup `{HasAttributes L} (cart : list L) B :
  groupCartLinesByBundle cart !! B
  = if decide (B = "" ∨ members B cart = []) then None
    else Some (mkGroup B (members B cart)).
Proof.
  unfold groupCartLinesByBundle.
  destruct (decide (B = "")) as [->|HB].
  - rewrite decide_True by (by left).
    assert (Hkeep : ∀ (groups : gmap string (BundleGroup L)),
              foldl groupStep groups cart !! "" = groups !! "").
    { induction cart as [|line cart IH]; intros groups; [done|].
      simpl. rewrite IH, groupStep_lookup. rewrite decide_False; [done|].
      intros (? & _). done. }
    by rewrite Hkeep.
  - rewrite group_loop_lookup by done. rewrite lookup_empty.
    destruct (decide (members B cart = [])).
    + rewrite decide_True by (by right). done.
    + rewrite decide_False; [done|]. intros [?|?]; done.
Qed.


(** X2. The map [groupCartLinesByBundle] builds has, under each key [B],
    the group of the lines of the cart that carry the bundle flag and read
    [B] as their bundle product id, in cart order; it has no entry for the
    empty id and none for an id no flagged line reads. *)
Theorem groupCartLinesByBundle_lookup `{HasAttributes L} (cart : list L) B :
  groupCartLinesByBundle cart !! B
  = if decide (B = "" ∨ members B cart = []) then None
    else Some (mkGroup B (members B cart)).
Proof. apply group_lookup. Qed.

Lemma grouped_members `{HasAttributes L} (line : L) (cart : list L) :
  line ∈ cart →
  grouped line = true ↔ ∃ B, B ≠ "" ∧ line ∈ members B cart.
Proof.
  intros Hin. unfold grouped, members. split.
  - intros [Hb Hid]%andb_prop.
    destruct (BundleLineAttributes._bundleProductId _) as [B|] eqn:HB; [|done].
    apply negb_true_iff, bool_decide_eq_false in Hid.
    exists B. split; [done|]. apply list_elem_of_filter. by rewrite HB.
  - intros (B & HB & Hm). apply list_elem_of_filter in Hm as [[Hb Hid] _].
    rewrite Hb, Hid. simpl. by rewrite bool_decide_eq_false_2.
Qed.

Lemma group_elements `{HasAttributes L} (cart : list L) (line : L) :
  (∃ B g, groupCartLinesByBundle cart !! B = Some g ∧ line ∈ lines g)
  ↔ line ∈ cart ∧ grouped line = true.
Proof.
  split.
  - intros (B & g & Hg & Hin). rewrite group_lookup in Hg.
    case_decide as Hc; [done|]. injection Hg as <-. simpl in Hin.
    assert (Hcart : line ∈ cart).
    { unfold members in Hin. by apply list_elem_of_filter in Hin as [_ ?]. }
    split; [done|]. apply (grouped_members line cart Hcart).
    exists B. split; [|done]. intros ->. apply Hc. by left.
  - intros [Hcart (B & HB & Hin)%(grouped_members line cart Hcart)].
    exists B, (mkGroup B (members B cart)). split; [|done].
    rewrite group_lookup. rewrite decide_False; [done|].
    intros [?|Hnil]; [done|]. rewrite Hnil in Hin. by apply elem_of_nil in Hin.
Qed.

Lemma filter_ext_in {A} (P Q : A → Prop) `{∀ x, Decision (P x), ∀ x, Decision (Q x)}
    (l : list A) :
  (∀ x, x ∈ l → P x ↔ Q x) → filter P l = filter Q l.
Proof.
  induction l as [|a l IH]; intros Hext; [done|].
  rewrite !list.filter_cons.
  rewrite IH by (intros x Hx; apply Hext; by right).
  assert (Ha : P a ↔ Q a) by (apply Hext; left).
  repeat case_decide; first [done | exfalso; tauto].
Qed.

Lemma NoDup_fmap_eq {A B} (f : A → B) (l : list A) x y :
  NoDup (f <$> l) → x ∈ l → y ∈ l → f x = f y → x = y.
Proof.
  induction l as [|a l IH]; intros Hnd Hx Hy Hf; [by apply elem_of_nil in Hx|].
  rewrite fmap_cons in Hnd. apply list.NoDup_cons in Hnd as [Ha Hnd].
  apply elem_of_cons in Hx as [->|Hx]; apply elem_of_cons in Hy as [->|Hy].
  - done.
  - destruct Ha. rewrite Hf. apply list_elem_of_fmap. by exists y.
  - destruct Ha. rewrite <-Hf. apply list_elem_of_fmap. by exists x.
  - by apply IH.
Qed.

(** X3. On a cart whose line ids are pairwise distinct, [useBundleLines]
    splits the lines in two: [nonBundleLines] are, in cart order, the
    lines the grouping does not keep (no bundle flag, or no bundle id, or
    an empty one), every other line is in a group, and each group is keyed
    by a non-empty id and holds exactly the flagged lines that read it. *)
Theorem useBundleLines_partition (cart : list CartLine.t) :
  NoDup (CartLine.id <$> cart) →
  let r := UseBundleLines.useBundleLines cart in
  UseBundleLines.nonBundleLines r = filter (λ line, grouped line = false) cart
  ∧ (∀ line, line ∈ cart →
       grouped line = true
       ↔ ∃ B g, UseBundleLines.bundleGroups r !! B = Some g ∧ line ∈ lines g)
  ∧ (∀ B g, UseBundleLines.bundleGroups r !! B = Some g →
       B ≠ "" ∧ bundleProductId g = B ∧ lines g = members B cart ∧ lines g ≠ []).
Proof.
  intros Hnd r. subst r. unfold UseBundleLines.useBundleLines. simpl.
  split; [|split].
  - apply filter_ext_in. intros line Hin.
    unfold UseBundleLines.bundleLineIds.
    rewrite elem_of_list_to_set, list_elem_of_fmap. split.
    + intros Hno. apply not_true_iff_false. intros Hg. apply Hno.
      exists line. split; [done|]. apply list_elem_of_bind.
      destruct (proj2 (group_elements cart line) (conj Hin Hg)) as (B & g & Hl & Hm).
      exists (B, g). split; [done|]. by apply elem_of_map_to_list.
    + intros Hg (line' & Hid & ([B g] & Hm & Hl%elem_of_map_to_list)%list_elem_of_bind).
      simpl in Hm.
      destruct (proj1 (group_elements cart line') (ex_intro _ B (ex_intro _ g (conj Hl Hm))))
        as [Hin' Hg'].
      assert (line = line') as <- by (by eapply NoDup_fmap_eq).
      congruence.
  - intros line Hin. split.
    + intros Hg. by apply group_elements.
    + intros Hex. by apply group_elements in Hex as [_ ?].
  - intros B g Hg. rewrite group_lookup in Hg.
    case_decide as Hc; [done|]. injection Hg as <-. simpl.
    split; [|split; [done|split; [done|]]]; intros ?; apply Hc; auto.
Qed.

End TagReader.

Lemma useBundleLines_partition_witness :
  NoDup (CartLine.id <$> Scenarios.cartLines)
  ∧ UseBundleLines.nonBundleLines (UseBundleLines.useBundleLines Scenarios.cartLines)
    = [Fixtures.plainLine]
  ∧ ∀ B g,
      UseBundleLines.bundleGroups (UseBundleLines.useBundleLines Scenarios.cartLines)
        !! B = Some g →
      BuildCartMutation.lines g = Notions.members B Scenarios.cartLines.
Proof.
  assert (Hnd : NoDup (CartLine.id <$> Scenarios.cartLines)).
  { apply (bool_decide_unpack _). vm_compute. exact I. }
  split; [exact Hnd|].
  destruct (useBundleLines_partition Scenarios.cartLines Hnd) as (Hplain & _ & Hgroups).
  split.
  - rewrite Hplain. vm_compute. reflexivity.
  - intros B g Hg. by destruct (Hgroups B g Hg) as (_ & _ & ? & _).
Defined.

(** ** The shape of a validation result, and [addBundleToCart] *)

Section ValidationShape.
Import Validation.

Lemma validateSelections_shape definition selections :
  validateSelections definition selections = ok
  ∨ ∃ message, validateSelections definition selections = fail message.
Proof.
  induction selections as [|s rest IH]; [by left|]. simpl.
  destruct (validateSelection definition s) as [message|]; [|done].
  right. by exists message.
Qed.

Lemma validateBundleSelection_shape definition selections :
  validateBundleSelection definition selections = ok
  ∨ ∃ message, validateBundleSelection definition selections = fail message.
Proof.
  unfold validateBundleSelection.
  case_decide; [by left|].
  destruct (bounded (BundleDefinition.minSelections definition) _);
    [right; by eexists|].
  destruct (bounded (BundleDefinition.maxSelections definition) _);
    [right; by eexists|].
  apply validateSelections_shape.
Qed.

(** X4. Whatever the definition and the selections, the result of
    [validateBundleSelection] carries an error message exactly when it is
    not valid: a valid result has none, an invalid one always has one. *)
Theorem validateBundleSelection_error_iff definition selections :
  let r := validateBundleSelection definition selections in
  (ValidationResult.valid r = true ↔ ValidationResult.error r = None)
  ∧ (ValidationResult.valid r = false ↔ is_Some (ValidationResult.error r)).
Proof.
  intros r. subst r.
  destruct (validateBundleSelection_shape definition selections) as [-> | [m ->]];
    simpl; split; split; done.
Qed.

End ValidationShape.

Section CartCall.
Import CartMutationCall BuildCartMutation Notions.

Variable fetch : CartRequest.t → FetchOutcome.
Variable parseInt : string → option Z.

(** X5. For a mix-and-match bundle whose selection does not validate,
    [addBundleToCart] answers a failure that carries the message of the
    validation (the fallback text is never used), without building lines
    and without a request: the answer is the same on every network. *)
Theorem addBundleToCart_gate definition config input :
  BundleDefinition.bundleType definition = mix_and_match →
  ValidationResult.valid
    (Validation.validateBundleSelection definition
       (default [] (AddBundleInput.selectedComponents input))) = false →
  ∃ message,
    ValidationResult.error
      (Validation.validateBundleSelection definition
         (default [] (AddBundleInput.selectedComponents input))) = Some message
    ∧ addBundleToCart fetch parseInt definition config input
      = Some (AddBundleResult.mk false None (Some message) None).
Proof.
  intros Hmix Hinvalid.
  unfold addBundleToCart. rewrite decide_True by done.
  destruct (validateBundleSelection_shape definition
              (default [] (AddBundleInput.selectedComponents input)))
    as [Hok | [message Hfail]].
  - by rewrite Hok in Hinvalid.
  - exists message. by rewrite Hfail.
Qed.

Lemma addBundleToCart_passed definition config input :
  passesGate definition input →
  addBundleToCart fetch parseInt definition config input
  = submitLines fetch parseInt config input
      <$> buildBundleCartLines definition input.
Proof.
  intros Hgate. unfold addBundleToCart.
  case_decide as Hmix.
  - rewrite (Hgate Hmix). simpl. by destruct (buildBundleCartLines definition input).
  - simpl. by destruct (buildBundleCartLines definition input).
Qed.

Lemma submitLines_execute config input lines :
  ∃ mutation variables,
    submitLines fetch parseInt config input lines
    = match executeCartMutation fetch config mutation variables with
      | inr result =>
          match ExecuteResult.userErrors result with
          | Some (firstError :: rest) =>
              AddBundleResult.mk false None (Some (CartUserError.message firstError))
                (failedComponentOf parseInt lines firstError)
          | _ => AddBundleResult.mk true (ExecuteResult.cart result) None None
          end
      | inl (ThrownBundleBridgeError error) =>
          AddBundleResult.mk false None (Some (BundleBridgeError.message error)) None
      | inl (ThrownError message) => AddBundleResult.mk false None (Some message) None
      | inl ThrownValue =>
          AddBundleResult.mk false None (Some "Failed to add bundle to cart") None
      end
    ∧ ∀ token, requestOf config token mutation variables
               = cartRequestOf config token input lines.
Proof.
  unfold submitLines, cartRequestOf.
  destruct (AddBundleInput.cartId input) as [cartId|]; simpl.
  - case_bool_decide; simpl; eexists _, _; split; done.
  - eexists _, _; split; done.
Qed.

(** X6. Without a storefront access token (absent or empty), a bundle that
    passes the validation gate and whose lines build is answered with a
    failure whose error is the message of the configuration error, whatever
    the network would have said. *)
Theorem addBundleToCart_without_token definition config input lines :
  passesGate definition input →
  buildBundleCartLines definition input = Some lines →
  JsString.truthy (BundleBridgeConfig.storefrontAccessToken config) = false →
  addBundleToCart fetch parseInt definition config input
  = Some (AddBundleResult.mk false None (Some tokenMissing) None).
Proof.
  intros Hgate Hlines Htoken.
  rewrite addBundleToCart_passed, Hlines by done. simpl. f_equal.
  destruct (submitLines_execute config input lines) as (mutation & variables & -> & _).
  unfold executeCartMutation.
  destruct (BundleBridgeConfig.storefrontAccessToken config) as [token|]; [|done].
  simpl in Htoken. apply negb_false_iff in Htoken. by rewrite Htoken.
Qed.

(** X7. [addBundleToCart] reports success exactly when the bundle passes
    the validation gate, the access token is not empty, the request (one
    adding the lines to the cart of the input when it names one, else one
    creating a cart) is answered with [ok] and a body that parses, has no
    [errors] and whose payload ([cartCreate], else [cartLinesAdd]) has no
    user error; the result then carries the cart of that payload. *)
Theorem addBundleToCart_success definition config input r :
  addBundleToCart fetch parseInt definition config input = Some r →
  AddBundleResult.success r = true
  ↔ passesGate definition input
    ∧ ∃ lines token status body,
      buildBundleCartLines definition input = Some lines
      ∧ BundleBridgeConfig.storefrontAccessToken config = Some token
      ∧ token ≠ ""
      ∧ fetch (cartRequestOf config token input lines)
        = FetchResolved true status (inr body)
      ∧ CartResponseBody.errors body = None
      ∧ let payload :=
          match CartResponseBody.data body ≫= CartData.cartCreate with
          | Some p => Some p
          | None => CartResponseBody.data body ≫= CartData.cartLinesAdd
          end in
        (payload ≫= CartPayload.userErrors = None
         ∨ payload ≫= CartPayload.userErrors = Some [])
        ∧ r = AddBundleResult.mk true (payload ≫= CartPayload.cart) None None.
Proof.
  intros Hr.
  destruct (decide (passesGate definition input)) as [Hpass|Hfail].
  2:{ split; [|by intros [? _]]. intros Hs. exfalso.
      unfold addBundleToCart in Hr.
      destruct (negb _) eqn:Hv; [injection Hr as <-; done|].
      apply negb_false_iff in Hv. apply Hfail. intros Hmix.
      by rewrite decide_True in Hv by done. }
  rewrite addBundleToCart_passed in Hr by done.
  destruct (buildBundleCartLines definition input) as [lines|] eqn:Hlines; [|done].
  simpl in Hr. injection Hr as <-.
  destruct (submitLines_execute config input lines)
    as (mutation & variables & -> & Hreq).
  unfold executeCartMutation.
  destruct (BundleBridgeConfig.storefrontAccessToken config) as [token|] eqn:Htok.
  2:{ simpl. split; [done|]. by intros (_ & ? & ? & ? & ? & _ & ? & _). }
  case_bool_decide as Hempty.
  { simpl. split; [done|]. intros (_ & ? & ? & ? & ? & _ & [= <-] & ? & _). done. }
  rewrite Hreq.
  split.
  - intros Hs. split; [done|]. exists lines, token.
    destruct (fetch (cartRequestOf config token input lines))
      as [[e|m|]|[|] status [[e|m|]|body]]; simpl in Hs; try done.
    exists status, body.
    destruct (CartResponseBody.errors body) as [errors|]; [done|].
    split; [done|]. split; [done|]. split; [done|]. split; [done|]. split; [done|].
    simpl in *.
    destruct (_ ≫= CartPayload.userErrors) as [[|e rest]|]; simpl in *;
      [by split; [right|] | done | by split; [left|]].
  - intros (_ & lines' & token' & status & body & [= <-] & [= <-] & _
            & Hf & He & Hu & Hres).
    rewrite Hf, He in *. simpl. simpl in Hu, Hres.
    by destruct Hu as [-> | ->].
Qed.

(** X8. The failed component of a user error is read off the built lines:
    when the second segment of the error's field path parses to the index
    [k] of a resolved component whose product id is not empty, the failed
    component is that component's product and variant with the error's
    message as reason; and a failed component is only ever reported that
    way. *)
Theorem failedComponent_attribution definition input lines comps firstError :
  buildBundleCartLines definition input = Some lines →
  componentsToAdd definition (AddBundleInput.selectedComponents input) = Some comps →
  (∀ (k : nat) c segment index rest,
     CartUserError.field firstError = Some (segment :: index :: rest) →
     parseInt index = Some (Z.of_nat k) →
     comps !! k = Some c →
     BundleSelection.productId c ≠ "" →
     failedComponentOf parseInt lines firstError
     = Some (FailedComponent.mk (BundleSelection.productId c)
               (BundleSelection.variantId c) (CartUserError.message firstError)))
  ∧ (∀ failed, failedComponentOf parseInt lines firstError = Some failed →
       ∃ (k : nat) c segment index rest,
         CartUserError.field firstError = Some (segment :: index :: rest)
         ∧ parseInt index = Some (Z.of_nat k)
         ∧ comps !! k = Some c
         ∧ BundleSelection.productId c ≠ ""
         ∧ failed = FailedComponent.mk (BundleSelection.productId c)
                      (BundleSelection.variantId c) (CartUserError.message firstError)).
Proof.
  intros Hlines Hcomps.
  unfold buildBundleCartLines in Hlines. rewrite Hcomps in Hlines.
  simpl in Hlines. injection Hlines as <-.
  assert (Hat : ∀ (k : nat),
    lineAt (imap (λ index component,
            CartLineInput.mk
              (BundleSelection.variantId component)
              (BundleSelection.quantity component
               * default 1 (AddBundleInput.quantity input))
              (buildBundleAttributes (BundleDefinition.id definition) index
                 (length comps) (BundleSelection.productId component)
               ++ customAttributesOf input)) comps) (Z.of_nat k)
    = (λ component,
            CartLineInput.mk
              (BundleSelection.variantId component)
              (BundleSelection.quantity component
               * default 1 (AddBundleInput.quantity input))
              (buildBundleAttributes (BundleDefinition.id definition) k
                 (length comps) (BundleSelection.productId component)
               ++ customAttributesOf input)) <$> comps !! k).
  { intros k. unfold lineAt. rewrite bool_decide_eq_true_2 by lia.
    by rewrite Nat2Z.id, list_lookup_imap. }
  split.
  - intros k c segment index rest Hfield Hindex Hk Hp.
    unfold failedComponentOf. rewrite Hfield. simpl. rewrite Hindex. simpl.
    rewrite Hat, Hk. simpl. by rewrite bool_decide_eq_false_2.
  - intros failed Hfailed. unfold failedComponentOf in Hfailed.
    destruct (CartUserError.field firstError) as [[|segment [|index rest]]|];
      try done.
    simpl in Hfailed.
    destruct (parseInt index) as [lineIndex|] eqn:Hindex; [|done].
    simpl in Hfailed.
    destruct (decide (0 ≤ lineIndex)) as [Hpos|Hneg].
    2:{ unfold lineAt in Hfailed. by rewrite bool_decide_eq_false_2 in Hfailed. }
    rewrite <-(Z2Nat.id lineIndex) in Hfailed, Hindex by done.
    rewrite Hat in Hfailed.
    destruct (comps !! Z.to_nat lineIndex) as [c|] eqn:Hk; [|done].
    simpl in Hfailed. case_bool_decide as Hp; [done|].
    injection Hfailed as <-.
    exists (Z.to_nat lineIndex), c, segment, index, rest. done.
Qed.

(** X9. [addBundleToCart] returns a result unless building the lines
    throws (which happens outside its [try] block, after the gate has been
    passed); a successful result has neither error nor failed component,
    and a failed one always has an error message and never a cart. *)
Theorem addBundleToCart_result_shape definition config input :
  (addBundleToCart fetch parseInt definition config input = None
   ↔ passesGate definition input ∧ buildBundleCartLines definition input = None)
  ∧ ∀ r, addBundleToCart fetch parseInt definition config input = Some r →
      (AddBundleResult.success r = true →
         AddBundleResult.error r = None ∧ AddBundleResult.failedComponent r = None)
      ∧ (AddBundleResult.success r = false →
         is_Some (AddBundleResult.error r) ∧ AddBundleResult.cart r = None).
Proof.
  split.
  - split.
    + intros Hnone. unfold addBundleToCart in Hnone.
      destruct (negb _) eqn:Hv; [done|]. apply negb_false_iff in Hv.
      split.
      * intros Hmix. by rewrite decide_True in Hv by done.
      * by destruct (buildBundleCartLines definition input).
    + intros [Hgate Hb]. by rewrite addBundleToCart_passed, Hb by done.
  - intros r Hr. unfold addBundleToCart in Hr.
    destruct (negb _); [injection Hr as <-; simpl; split; [done|eauto]|].
    destruct (buildBundleCartLines definition input) as [lines|]; [|done].
    simpl in Hr. injection Hr as <-.
    destruct (submitLines_execute config input lines) as (mutation & variables & -> & _).
    destruct (executeCartMutation fetch config mutation variables)
      as [[e|m|]|result]; simpl; try (split; [done|eauto]).
    destruct (ExecuteResult.userErrors result) as [[|e rest]|]; simpl;
      split; try done; eauto.
Qed.

End CartCall.

Lemma addBundleToCart_gate_witness :
  CartMutationCall.addBundleToCart Scenarios.accepting Scenarios.parseInt
    (Fixtures.mixAndMatchBundle (Some 2) (Some 4))
    (Scenarios.config (Some "token") None)
    (Fixtures.input (Some [Scenarios.selection "p1" "v1" 1]) None None)
  = Some (AddBundleResult.mk false None (Some "Please select at least 2 items.") None).
Proof.
  destruct (addBundleToCart_gate Scenarios.accepting Scenarios.parseInt
              (Fixtures.mixAndMatchBundle (Some 2) (Some 4))
              (Scenarios.config (Some "token") None)
              (Fixtures.input (Some [Scenarios.selection "p1" "v1" 1]) None None)
              eq_refl eq_refl) as (message & Hmessage & Hresult).
  vm_compute in Hmessage. injection Hmessage as <-. exact Hresult.
Defined.

Lemma addBundleToCart_without_token_witness :
  CartMutationCall.addBundleToCart Scenarios.accepting Scenarios.parseInt
    Fixtures.fixedBundle (Scenarios.config (Some "") None)
    (Fixtures.input None None None)
  = Some (AddBundleResult.mk false None (Some Notions.tokenMissing) None).
Proof.
  destruct (buildBundleCartLines_returns Fixtures.fixedBundle
              (Fixtures.input None None None)) as [lines Hlines].
  { right. repeat constructor; by eexists. }
  apply (addBundleToCart_without_token Scenarios.accepting Scenarios.parseInt
           Fixtures.fixedBundle (Scenarios.config (Some "") None)
           (Fixtures.input None None None) lines).
  - intros Hmix. discriminate Hmix.
  - exact Hlines.
  - reflexivity.
Defined.

Lemma addBundleToCart_success_witness :
  ∃ r,
    CartMutationCall.addBundleToCart Scenarios.accepting Scenarios.parseInt
      Fixtures.fixedBundle (Scenarios.config (Some "token") None)
      (Fixtures.input None None None) = Some r
    ∧ AddBundleResult.success r = true
    ∧ AddBundleResult.cart r = Some Scenarios.cart
    ∧ Notions.passesGate Fixtures.fixedBundle (Fixtures.input None None None).
Proof.
  exists (AddBundleResult.mk true (Some Scenarios.cart) None None).
  assert (Hr : CartMutationCall.addBundleToCart Scenarios.accepting Scenarios.parseInt
                 Fixtures.fixedBundle (Scenarios.config (Some "token") None)
                 (Fixtures.input None None None)
               = Some (AddBundleResult.mk true (Some Scenarios.cart) None None)).
  { vm_compute. reflexivity. }
  split; [exact Hr|]. split; [reflexivity|]. split; [reflexivity|].
  exact (proj1 (proj1 (addBundleToCart_success Scenarios.accepting Scenarios.parseInt
                         _ _ _ _ Hr) eq_refl)).
Defined.

Lemma failedComponent_attribution_witness :
  ∃ lines,
    BuildCartMutation.buildBundleCartLines Fixtures.fixedBundle
      (Fixtures.input None None None) = Some lines
    ∧ CartMutationCall.failedComponentOf Scenarios.parseInt lines Scenarios.userError
      = Some (FailedComponent.mk "p2" "v2" "Variant is sold out").
Proof.
  destruct (buildBundleCartLines_returns Fixtures.fixedBundle
              (Fixtures.input None None None)) as [lines Hlines].
  { right. repeat constructor; by eexists. }
  exists lines. split; [exact Hlines|].
  refine (proj1 (failedComponent_attribution Scenarios.parseInt Fixtures.fixedBundle
                   (Fixtures.input None None None) lines
                   [Scenarios.selection "p1" "v1" 2; Scenarios.selection "p2" "v2" 1]
                   Scenarios.userError Hlines eq_refl)
            1%nat (Scenarios.selection "p2" "v2" 1) "lines" "1" ["merchandiseId"]
            eq_refl eq_refl eq_refl _).
  discriminate.
Defined.

(** ** utils/errors.ts and utils/cache.ts *)

Section ApiErrors.
Import Errors.

(** X10. Of the errors [parseApiError] makes of a backend response, the
    recoverable ones are exactly those of status 429: a response is never
    turned into a network or a cart error. *)
Theorem parseApiError_recoverable response :
  isRecoverableError (ThrownBundleBridgeError (parseApiError response)) = true
  ↔ ApiErrorResponse.status response = 429.
Proof.
  unfold parseApiError.
  repeat case_bool_decide; simpl; split; intros; try done; try lia.
  all: by apply bool_decide_eq_true_2; vm_compute; auto using elem_of_list_here,
    elem_of_list_further.
Qed.

(** X11. [parseApiError] decides the code by the status first (404, then
    429) and by the response's code next, falling back to [UNKNOWN_ERROR];
    the message shown to the user is the response's [error] when it has
    one, else the default message of the code; and the details are kept
    only for the two codes the response itself names, never for a 404 or a
    429. *)
Theorem parseApiError_code_and_message response :
  let e := parseApiError response in
  let code :=
    if decide (ApiErrorResponse.status response = 404) then BUNDLE_NOT_FOUND
    else if decide (ApiErrorResponse.status response = 429) then RATE_LIMITED
    else if decide (ApiErrorResponse.code response = Some "COMPONENT_OUT_OF_STOCK")
      then COMPONENT_OUT_OF_STOCK
    else if decide (ApiErrorResponse.code response = Some "INVALID_SELECTION")
      then INVALID_SELECTION
    else UNKNOWN_ERROR in
  BundleBridgeError.code e = ERROR_CODES.text code
  ∧ getUserMessage (ThrownBundleBridgeError e)
    = default (defaultMessages code) (ApiErrorResponse.error response)
  ∧ (is_Some (BundleBridgeError.details e) →
     ApiErrorResponse.status response ≠ 404
     ∧ ApiErrorResponse.status response ≠ 429
     ∧ (code = COMPONENT_OUT_OF_STOCK ∨ code = INVALID_SELECTION)).
Proof.
  unfold parseApiError.
  repeat case_bool_decide; repeat case_decide; try done; simpl;
    (split; [done|]; split; [done|]); intros [? ?]; try done; auto.
Qed.

End ApiErrors.

Section MemoryCache.
Import Cache.

(** X12. An entry stored at time [stored] with a time to live [ttl] is
    read back as long as [now - stored <= ttl] (the bound included) and the
    cache is left as it is; later it reads as missing and the read removes
    it; and storing under one key changes neither what is read nor what
    is kept under another. *)
Theorem cache_set_get {T} (cache : gmap string (CacheEntry.t T)) key (data : T)
    ttl stored now :
  let cache' := setInCache cache key data ttl stored in
  (now - stored ≤ ttl → getFromCache cache' key now = (Some data, cache'))
  ∧ (ttl < now - stored → getFromCache cache' key now = (None, delete key cache))
  ∧ (∀ other, other ≠ key →
       (getFromCache cache' other now).1 = (getFromCache cache other now).1
       ∧ (getFromCache cache' key now).2 !! other = cache !! other).
Proof.
  intros cache'. subst cache'. unfold getFromCache, setInCache.
  rewrite lookup_insert_eq. simpl.
  split; [|split].
  - intros Hle. by rewrite bool_decide_eq_false_2 by lia.
  - intros Hgt. rewrite bool_decide_eq_true_2 by lia. by rewrite delete_insert_eq.
  - intros other Hne. rewrite lookup_insert_ne by done. split.
    + destruct (cache !! other) as [entry|]; [|done]. by case_bool_decide.
    + case_bool_decide; simpl.
      * rewrite lookup_delete_ne by done. by rewrite lookup_insert_ne.
      * by rewrite lookup_insert_ne.
Qed.

Lemma sort_Permutation (l k : list string) :
  l ≡ₚ k → JsString.sort l = JsString.sort k.
Proof.
  intros Hp. unfold JsString.sort.
  apply (sorting.Sorted_unique String.le).
  - apply sorting.Sorted_merge_sort; apply _.
  - apply sorting.Sorted_merge_sort; apply _.
  - by rewrite !sorting.merge_sort_Permutation.
Qed.

(** X13. The cache keys of the inventory and of the price do not depend
    on the order of the selections: two lists that are permutations of
    each other get the same key. *)
Theorem cache_key_order_free bundleId (selections selections' : list KeySelection.t) :
  selections ≡ₚ selections' →
  getInventoryCacheKey bundleId (Some selections)
  = getInventoryCacheKey bundleId (Some selections')
  ∧ getPriceCacheKey bundleId (Some selections)
    = getPriceCacheKey bundleId (Some selections').
Proof.
  intros Hp.
  assert (Hhash : selectionsHash selections = selectionsHash selections').
  { unfold selectionsHash. f_equal. apply sort_Permutation. by rewrite Hp. }
  destruct selections as [|s rest], selections' as [|s' rest'].
  - done.
  - by apply Permutation_nil_l in Hp.
  - by apply Permutation_nil_r in Hp.
  - unfold getInventoryCacheKey, getPriceCacheKey. by rewrite Hhash.
Qed.

Lemma startsWith_app (b rest : string) : JsString.startsWith (b +:+ rest) b = true.
Proof.
  unfold JsString.startsWith. induction b as [|a b IH].
  - change ("" +:+ rest) with rest. by destruct rest.
  - change (String a b +:+ rest) with (String a (b +:+ rest)). simpl.
    destruct (ascii_dec a a); [exact IH | done].
Qed.

Lemma startsWith_key bundleId selections :
  JsString.startsWith (getInventoryCacheKey bundleId selections) bundleId = true
  ∧ JsString.startsWith (getPriceCacheKey bundleId selections) bundleId = true.
Proof.
  assert (Hself : JsString.startsWith bundleId bundleId = true).
  { pose proof (startsWith_app bundleId "") as H.
    assert (bundleId +:+ "" = bundleId) as Hnil; [|by rewrite Hnil in H].
    clear. induction bundleId as [|a b IH]; [done|].
    change (String a b +:+ "") with (String a (b +:+ "")). by rewrite IH. }
  unfold getInventoryCacheKey, getPriceCacheKey.
  destruct selections as [[|s rest]|]; auto using startsWith_app.
Qed.

Lemma deleteStartingWith_lookup {T} bundleId (cache : gmap string (CacheEntry.t T)) key :
  deleteStartingWith bundleId cache !! key
  = if JsString.startsWith key bundleId then None else cache !! key.
Proof.
  unfold deleteStartingWith.
  destruct (JsString.startsWith key bundleId) eqn:Hs.
  - apply map_lookup_filter_None. right. intros entry _. simpl. by rewrite Hs.
  - destruct (cache !! key) as [entry|] eqn:Hk.
    + apply map_lookup_filter_Some. by split.
    + apply map_lookup_filter_None. by left.
Qed.

(** X14. After [clearBundleCache] nothing is cached for the bundle: its
    definition, and its inventory and price under every selection, read as
    missing at any time.  What is removed is the definition under the
    bundle id itself and every inventory and price entry whose key starts
    with the bundle id (those of another bundle whose id extends it
    included); every other entry is kept. *)
Theorem clearBundleCache_clears memoryCache bundleId :
  let cleared := clearBundleCache memoryCache bundleId in
  (∀ selections now,
     (getCachedDefinition cleared bundleId now).1 = None
     ∧ (getCachedInventory cleared bundleId selections now).1 = None
     ∧ (getCachedPrice cleared bundleId selections now).1 = None)
  ∧ (∀ key,
       BundleCache.definitions cleared !! key
       = (if decide (key = bundleId) then None
          else BundleCache.definitions memoryCache !! key)
       ∧ BundleCache.inventory cleared !! key
         = (if JsString.startsWith key bundleId then None
            else BundleCache.inventory memoryCache !! key)
       ∧ BundleCache.prices cleared !! key
         = (if JsString.startsWith key bundleId then None
            else BundleCache.prices memoryCache !! key)).
Proof.
  intros cleared. subst cleared. split.
  - intros selections now.
    destruct (startsWith_key bundleId selections) as [Hi Hp].
    unfold getCachedDefinition, getCachedInventory, getCachedPrice, getFromCache,
      clearBundleCache. simpl.
    rewrite lookup_delete_eq, !deleteStartingWith_lookup, Hi, Hp. done.
  - intros key. unfold clearBundleCache. simpl.
    rewrite !deleteStartingWith_lookup. split; [|done].
    case_decide as Hk; [subst; apply lookup_delete_eq | by apply lookup_delete_ne].
Qed.

End MemoryCache.

Lemma cache_key_order_free_witness :
  Cache.getPriceCacheKey "b"
    (Some [KeySelection.mk "v2" 1; KeySelection.mk "v1" 2])
  = Cache.getPriceCacheKey "b"
      (Some [KeySelection.mk "v1" 2; KeySelection.mk "v2" 1])
  ∧ Cache.getPriceCacheKey "b"
      (Some [KeySelection.mk "v1" 2; KeySelection.mk "v2" 1]) = "b|v1:2,v2:1".
Proof.
  split; [|vm_compute; reflexivity].
  apply (cache_key_order_free "b"
           [KeySelection.mk "v2" 1; KeySelection.mk "v1" 2]
           [KeySelection.mk "v1" 2; KeySelection.mk "v2" 1]).
  apply Permutation_swap.
Defined.

(** ** The cached calls: [resolveBundle] and [calculateBundlePrice] *)

Section ResolveCall.
Import ResolveBundleCall Cache Notions.

Variable parseFloat : string → Qc.

Lemma cache_set_get_fresh {T} (cache : gmap string (CacheEntry.t T)) key (data : T)
    ttl stored now :
  now - stored ≤ ttl →
  getFromCache (setInCache cache key data ttl stored) key now
  = (Some data, setInCache cache key data ttl stored).
Proof.
  intros Hle. unfold getFromCache, setInCache. rewrite lookup_insert_eq. simpl.
  by rewrite bool_decide_eq_false_2 by lia.
Qed.

(** X15. With the cache enabled, a [resolveBundle] that goes to the
    network (the cache is skipped, or has no live entry) and succeeds
    stores the definition under the bundle id, with the configured time to
    live ([cacheTtl] seconds, the default of five minutes when absent or
    0).  Until that time has passed, every later [resolveBundle] of the
    same id that does not skip the cache answers the stored definition and
    leaves the cache as it is, whatever the network, the backend and the
    rest of its configuration are. *)
Theorem resolveBundle_cached fetch resolveFromBackend memoryCache clock bundleId
    config options definition memoryCache' :
  cacheEnabled config = true →
  skips (options ≫= ResolveOptions.skipCache) = true
  ∨ (getCachedDefinition memoryCache bundleId (ResolveClock.atLookup clock)).1 = None →
  resolveBundle parseFloat fetch resolveFromBackend memoryCache clock bundleId config
    options = (inr definition, memoryCache') →
  memoryCache'
  = cacheDefinition
      (if skips (options ≫= ResolveOptions.skipCache) then memoryCache
       else (getCachedDefinition memoryCache bundleId (ResolveClock.atLookup clock)).2)
      bundleId definition (ttlOf config) (ResolveClock.atStore clock)
  ∧ ∀ fetch' resolveFromBackend' clock' config' options',
      cacheEnabled config' = true →
      skips (options' ≫= ResolveOptions.skipCache) = false →
      ResolveClock.atLookup clock' - ResolveClock.atStore clock
      ≤ default CACHE_TTL.definition (ttlOf config) →
      resolveBundle parseFloat fetch' resolveFromBackend' memoryCache' clock' bundleId
        config' options' = (inr definition, memoryCache').
Proof.
  intros Hen Hfirst Hres.
  unfold resolveBundle, skips in *. rewrite Hen in Hres. simpl in Hres.
  assert (Hstore : memoryCache'
    = cacheDefinition
        (if default false (options ≫= ResolveOptions.skipCache) then memoryCache
         else (getCachedDefinition memoryCache bundleId (ResolveClock.atLookup clock)).2)
        bundleId definition (ttlOf config) (ResolveClock.atStore clock)).
  { destruct (default false (options ≫= ResolveOptions.skipCache)); simpl in *.
    - destruct (if hostedBackend config then _ else _) as [e|d]; [done|].
      by injection Hres as <- <-.
    - destruct Hfirst as [?|Hmiss]; [done|].
      destruct (getCachedDefinition memoryCache bundleId _) as [cached mc].
      simpl in Hmiss. subst cached.
      destruct (if hostedBackend config then _ else _) as [e|d]; [done|].
      by injection Hres as <- <-. }
  split; [exact Hstore|].
  intros fetch' resolveFromBackend' clock' config' options' Hen' Hskip' Hfresh.
  rewrite Hen', Hskip'. simpl.
  rewrite Hstore. unfold getCachedDefinition, cacheDefinition. simpl.
  by rewrite cache_set_get_fresh.
Qed.

(** X16. With [enableCache] set to [false], [resolveBundle] neither reads
    nor writes the cache: it answers what the hosted backend (when an API
    key and URL are configured) or the Storefront API says, and the cache
    is unchanged. *)
Theorem resolveBundle_cache_disabled fetch resolveFromBackend memoryCache clock
    bundleId config options :
  BundleBridgeConfig.enableCache config = Some false →
  resolveBundle parseFloat fetch resolveFromBackend memoryCache clock bundleId config
    options
  = (if hostedBackend config then resolveFromBackend bundleId config
     else resolveFromStorefrontApi parseFloat fetch bundleId config,
     memoryCache).
Proof.
  intros Hoff. unfold resolveBundle, cacheEnabled. rewrite Hoff. simpl.
  by destruct (if hostedBackend config then _ else _).
Qed.

(** X17. [resolveFromStorefrontApi] returns a definition exactly when the
    access token is not empty, the request is answered with [ok] and a
    body that parses, has no [errors] and has a product, and
    [parseStorefrontResponse] makes that definition of the product; the
    request asks by id when the bundle id is a valid GID and by handle
    otherwise.  In every other case it throws. *)
Theorem resolveFromStorefrontApi_definition fetch bundleId config definition :
  resolveFromStorefrontApi parseFloat fetch bundleId config = inr definition
  ↔ ∃ token status body product,
      BundleBridgeConfig.storefrontAccessToken config = Some token
      ∧ token ≠ ""
      ∧ fetch (productRequestOf config token bundleId)
        = ProductFetchResolved true status (inr body)
      ∧ ProductRequest.query (productRequestOf config token bundleId)
        = (if Gid.isValidGid bundleId then BUNDLE_PRODUCT_QUERY bundleId
           else BUNDLE_PRODUCT_BY_HANDLE_QUERY bundleId)
      ∧ ProductResponseBody.errors body = None
      ∧ ProductResponseBody.product body = Some product
      ∧ ResolveBundle.parseStorefrontResponse parseFloat product = Some (Some definition).
Proof.
  unfold resolveFromStorefrontApi.
  destruct (BundleBridgeConfig.storefrontAccessToken config) as [token|] eqn:Htok;
    simpl.
  2:{ split; [done|]. by intros (? & ? & ? & ? & ? & _). }
  case_bool_decide as Hempty; simpl.
  { split; [done|]. intros (? & ? & ? & ? & [= <-] & ? & _). done. }
  split.
  - intros Hr. exists token.
    destruct (fetch (productRequestOf config token bundleId))
      as [e|[|] status [e|body]]; try done.
    simpl in Hr. exists status, body.
    destruct (ProductResponseBody.errors body); [done|].
    destruct (ProductResponseBody.product body) as [product|]; [|done].
    exists product.
    destruct (ResolveBundle.parseStorefrontResponse parseFloat product)
      as [[d|]|]; try done.
    injection Hr as ->. done.
  - intros (token' & status & body & product & [= <-] & _ & Hf & _ & He & Hp & Hparse).
    by rewrite Hf, He, Hp, Hparse.
Qed.

End ResolveCall.

Section PriceCall.
Import CalculateBundlePrice Cache Notions.

Variable parseFloat : string → Qc.

#[local] Arguments getCachedPrice : simpl never.
#[local] Arguments cachePrice : simpl never.
#[local] Arguments keySelections : simpl never.
#[local] Arguments getPriceCacheKey : simpl never.

Lemma keySelections_Permutation selections selections' :
  selections ≡ₚ selections' →
  ∀ bundleId,
    getPriceCacheKey bundleId (keySelections (Some selections))
    = getPriceCacheKey bundleId (keySelections (Some selections')).
Proof.
  intros Hp bundleId. unfold keySelections.
  assert (Hk : (λ s, KeySelection.mk (BundleSelection.variantId s)
                       (BundleSelection.quantity s)) <$> selections
               ≡ₚ (λ s, KeySelection.mk (BundleSelection.variantId s)
                         (BundleSelection.quantity s)) <$> selections')
    by (by rewrite Hp).
  revert Hk. generalize ((λ s, KeySelection.mk (BundleSelection.variantId s)
                       (BundleSelection.quantity s)) <$> selections).
  generalize ((λ s, KeySelection.mk (BundleSelection.variantId s)
                       (BundleSelection.quantity s)) <$> selections').
  intros k' k Hk. unfold getPriceCacheKey.
  assert (Hhash : selectionsHash k = selectionsHash k').
  { unfold selectionsHash. f_equal. unfold JsString.sort.
    apply (sorting.Sorted_unique String.le).
    - apply sorting.Sorted_merge_sort; apply _.
    - apply sorting.Sorted_merge_sort; apply _.
    - rewrite !sorting.merge_sort_Permutation. by rewrite Hk. }
  destruct k as [|x k], k' as [|x' k']; [done| | |by rewrite Hhash].
  - by apply Permutation_nil_l in Hk.
  - by apply Permutation_nil_r in Hk.
Qed.

(** X18. Without a hosted backend, [calculateBundlePrice] on a definition
    that goes past the cache answers the local calculation and stores it;
    for the next minute, every call for the same bundle id (given as an id
    or as a definition) with the same selections in any order answers that
    stored price and leaves the cache as it is, whatever its network,
    backend and configuration are. *)
Theorem calculateBundlePrice_cached fetch resolveFromBackend calculatePriceFromBackend
    memoryCache clock definition config selections skipCache :
  ResolveBundleCall.hostedBackend config = false →
  skips skipCache = true
  ∨ (getCachedPrice memoryCache (BundleDefinition.id definition)
       (keySelections (Some selections)) (PriceClock.atLookup clock)).1 = None →
  ∃ memoryCache',
    calculateBundlePrice parseFloat fetch resolveFromBackend calculatePriceFromBackend
      memoryCache clock (inr definition) config
      (Some (PriceOptions.mk (Some selections) skipCache))
    = (inr (CalculatePrice.calculatePriceFromDefinition parseFloat definition
              (Some selections)), memoryCache')
    ∧ ∀ fetch' resolveFromBackend' calculatePriceFromBackend' clock' config'
        bundleIdOrDefinition' selections' skipCache',
        bundleIdOf bundleIdOrDefinition' = BundleDefinition.id definition →
        selections' ≡ₚ selections →
        skips skipCache' = false →
        PriceClock.atLookup clock' - PriceClock.atStore clock ≤ CACHE_TTL.price →
        calculateBundlePrice parseFloat fetch' resolveFromBackend'
          calculatePriceFromBackend' memoryCache' clock' bundleIdOrDefinition' config'
          (Some (PriceOptions.mk (Some selections') skipCache'))
        = (inr (CalculatePrice.calculatePriceFromDefinition parseFloat definition
                  (Some selections)), memoryCache').
Proof.
  intros Hlocal Hfirst.
  unfold calculateBundlePrice, skips in *. simpl.
  set (price := CalculatePrice.calculatePriceFromDefinition parseFloat definition
                  (Some selections)).
  set (key := keySelections (Some selections)).
  assert (Hcall : ∃ mc,
    (let '(cached, memoryCache0) :=
       if negb (default false skipCache)
       then getCachedPrice memoryCache (BundleDefinition.id definition) key
              (PriceClock.atLookup clock)
       else (None, memoryCache) in
     match cached with
     | Some p => (inr p, memoryCache0)
     | None =>
         let '(priceResult, memoryCache1) :=
           if ResolveBundleCall.hostedBackend config
           then (calculatePriceFromBackend (BundleDefinition.id definition) config
                   (Some selections), memoryCache0)
           else (inr price, memoryCache0) in
         match priceResult with
         | inl error => (inl error, memoryCache1)
         | inr p =>
             (inr p, cachePrice memoryCache1 (BundleDefinition.id definition) p key None
                       (PriceClock.atStore clock))
         end
     end)
    = (inr price, cachePrice mc (BundleDefinition.id definition) price key None
                    (PriceClock.atStore clock))).
  { rewrite Hlocal.
    destruct (default false skipCache); simpl.
    - by eexists.
    - destruct Hfirst as [?|Hmiss]; [done|]. fold key in Hmiss.
      destruct (getCachedPrice memoryCache _ key _) as [cached mc].
      simpl in Hmiss. subst cached. by eexists. }
  destruct Hcall as [mc Hcall].
  exists (cachePrice mc (BundleDefinition.id definition) price key None
            (PriceClock.atStore clock)).
  split; [exact Hcall|].
  intros fetch' resolveFromBackend' calculatePriceFromBackend' clock' config'
    bundleIdOrDefinition' selections' skipCache' Hid Hperm Hskip' Hfresh.
  rewrite Hskip'. simpl.
  assert (Hsame : (match bundleIdOrDefinition' with
                   | inl b => b | inr d => BundleDefinition.id d end)
                  = BundleDefinition.id definition) by exact Hid.
  rewrite Hsame.
  unfold getCachedPrice, cachePrice. simpl.
  rewrite (keySelections_Permutation _ _ Hperm). fold key.
  by rewrite cache_set_get_fresh.
Qed.

End PriceCall.

Lemma resolveBundle_cached_witness :
  let stored :=
    Cache.cacheDefinition Scenarios.emptyCache "gid://shopify/Product/100"
      Fixtures.fixedBundle None 1000 in
  ResolveBundleCall.resolveBundle Fixtures.parseFloat Scenarios.offline
    Scenarios.backendDown stored (ResolveClock.mk 301000 301000)
    "gid://shopify/Product/100" (Scenarios.config None None) None
  = (inr Fixtures.fixedBundle, stored).
Proof.
  refine (proj2 (resolveBundle_cached Fixtures.parseFloat Scenarios.offline
                   Scenarios.backend Scenarios.emptyCache (ResolveClock.mk 900 1000)
                   "gid://shopify/Product/100" Scenarios.hostedConfig None
                   Fixtures.fixedBundle _ eq_refl (or_intror eq_refl) eq_refl)
            Scenarios.offline Scenarios.backendDown (ResolveClock.mk 301000 301000)
            (Scenarios.config None None) None eq_refl eq_refl _).
  vm_compute. discriminate.
Defined.

Lemma resolveBundle_cache_disabled_witness :
  ResolveBundleCall.resolveBundle Fixtures.parseFloat Scenarios.offline
    Scenarios.backend Scenarios.emptyCache (ResolveClock.mk 900 1000)
    "gid://shopify/Product/100" (Scenarios.config (Some "token") (Some false)) None
  = (inl (ThrownError "Failed to fetch"), Scenarios.emptyCache).
Proof.
  exact (resolveBundle_cache_disabled Fixtures.parseFloat Scenarios.offline
           Scenarios.backend Scenarios.emptyCache (ResolveClock.mk 900 1000)
           "gid://shopify/Product/100" (Scenarios.config (Some "token") (Some false))
           None eq_refl).
Defined.

Lemma calculateBundlePrice_cached_witness :
  ∃ memoryCache',
    CalculateBundlePrice.calculateBundlePrice Fixtures.parseFloat Scenarios.offline
      Scenarios.backendDown Scenarios.priceBackendDown Scenarios.emptyCache
      (PriceClock.mk 900 (ResolveClock.mk 900 900) 1000) (inr Fixtures.fixedBundle)
      (Scenarios.config None None)
      (Some (PriceOptions.mk
               (Some [Scenarios.selection "p1" "v1" 2; Scenarios.selection "p2" "v2" 1])
               None))
    = (inr (CalculatePrice.calculatePriceFromDefinition Fixtures.parseFloat
              Fixtures.fixedBundle
              (Some [Scenarios.selection "p1" "v1" 2; Scenarios.selection "p2" "v2" 1])),
       memoryCache')
    ∧ CalculateBundlePrice.calculateBundlePrice Fixtures.parseFloat Scenarios.offline
        Scenarios.backendDown Scenarios.priceBackendDown memoryCache'
        (PriceClock.mk 61000 (ResolveClock.mk 61000 61000) 61000)
        (inl "gid://shopify/Product/100") (Scenarios.config None None)
        (Some (PriceOptions.mk
                 (Some [Scenarios.selection "p2" "v2" 1; Scenarios.selection "p1" "v1" 2])
                 None))
      = (inr (CalculatePrice.calculatePriceFromDefinition Fixtures.parseFloat
                Fixtures.fixedBundle
                (Some [Scenarios.selection "p1" "v1" 2; Scenarios.selection "p2" "v2" 1])),
         memoryCache').
Proof.
  destruct (calculateBundlePrice_cached Fixtures.parseFloat Scenarios.offline
              Scenarios.backendDown Scenarios.priceBackendDown Scenarios.emptyCache
              (PriceClock.mk 900 (ResolveClock.mk 900 900) 1000) Fixtures.fixedBundle
              (Scenarios.config None None)
              [Scenarios.selection "p1" "v1" 2; Scenarios.selection "p2" "v2" 1] None
              eq_refl (or_intror eq_refl))
    as (memoryCache' & Hfirst & Hlater).
  exists memoryCache'. split; [exact Hfirst|].
  apply (Hlater Scenarios.offline Scenarios.backendDown Scenarios.priceBackendDown
           (PriceClock.mk 61000 (ResolveClock.mk 61000 61000) 61000)
           (Scenarios.config None None) (inl "gid://shopify/Product/100")).
  - reflexivity.
  - apply Permutation_swap.
  - reflexivity.
  - vm_compute. discriminate.
Defined.

(** ** utils/validation.ts: [isValidGid] and [extractNumericId] *)

Section Identifiers.
Import Gid Notions.

Lemma app_cons c (s t : string) : String c s +:+ t = String c (s +:+ t).
Proof. reflexivity. Qed.

Lemma app_empty (t : string) : "" +:+ t = t.
Proof. reflexivity. Qed.

Lemma app_slash (t : string) : "/" +:+ t = String "/"%char t.
Proof. reflexivity. Qed.

Lemma dropPrefix_Some p s rest : dropPrefix p s = Some rest ↔ s = p +:+ rest.
Proof.
  revert s. induction p as [|a p IH]; intros s.
  - rewrite app_empty. simpl. split; [by intros [= ->] | by intros ->].
  - rewrite app_cons. destruct s as [|b s]; simpl; [done|].
    case_bool_decide as Hab.
    + subst b. rewrite IH. split; [by intros -> | by intros [= ->]].
    + split; [done|]. intros [= ? _]. done.
Qed.

Lemma slash_not_word : isWordChar "/"%char = false.
Proof. reflexivity. Qed.

Lemma slash_not_digit : isDigit "/"%char = false.
Proof. reflexivity. Qed.

Lemma wordSlashDigits_iff seen s :
  wordSlashDigits seen s = true
  ↔ ∃ w d, s = w +:+ "/" +:+ d
           ∧ (seen = true ∨ w ≠ "")
           ∧ allWordChars w = true
           ∧ digitsToEnd d = true.
Proof.
  revert seen. induction s as [|c s IH]; intros seen; simpl.
  - split; [done|]. intros (w & d & Hs & _). by destruct w.
  - destruct (isWordChar c) eqn:Hc.
    + rewrite IH. split.
      * intros (w & d & -> & _ & Hw & Hd). exists (String c w), d.
        rewrite app_cons. simpl. rewrite Hc, Hw. auto.
      * intros (w & d & Hs & _ & Hw & Hd). destruct w as [|c' w].
        { rewrite app_empty in Hs. injection Hs as -> _.
          by rewrite slash_not_word in Hc. }
        rewrite app_cons in Hs. injection Hs as <- ->.
        simpl in Hw. apply andb_prop in Hw as [_ Hw]. exists w, d. auto.
    + split.
      * intros [[Hseen Hslash%bool_decide_eq_true]%andb_prop Hd]%andb_prop.
        subst c. exists "", s. rewrite app_empty. auto.
      * intros (w & d & Hs & Hseen & Hw & Hd). destruct w as [|c' w].
        { rewrite app_empty in Hs. injection Hs as Hc' Hs'.
          change ("" +:+ d) with d in Hs'.
          rewrite <-Hs' in Hd. rewrite Hd, Hc'.
          destruct Hseen as [-> | ?]; [|done].
          by rewrite bool_decide_eq_true_2. }
        rewrite app_cons in Hs. injection Hs as <- _.
        simpl in Hw. apply andb_prop in Hw as [Hw _]. congruence.
Qed.

Lemma isValidGid_parts gid :
  isValidGid gid = true →
  ∃ w d, gid = "gid://shopify/" +:+ w +:+ "/" +:+ d
         ∧ w ≠ "" ∧ allWordChars w = true
         ∧ d ≠ "" ∧ allDigits d = true.
Proof.
  unfold isValidGid.
  destruct (dropPrefix "gid://shopify/" gid) as [rest|] eqn:Hp; [|done].
  apply dropPrefix_Some in Hp. intros (w & d & -> & Hseen & Hw & Hd)%wordSlashDigits_iff.
  exists w, d. split; [done|]. destruct Hseen as [?|?]; [done|].
  unfold digitsToEnd in Hd. apply andb_prop in Hd as [Hne Hd].
  apply negb_true_iff, bool_decide_eq_false in Hne. done.
Qed.

(** X19. [isValidGid] accepts exactly the strings made of the prefix
    [gid://shopify/], a non-empty run of word characters (letters, digits,
    underscore), a slash, and a non-empty run of digits that ends the
    string. *)
Theorem isValidGid_iff gid :
  isValidGid gid = true
  ↔ ∃ w d, gid = "gid://shopify/" +:+ w +:+ "/" +:+ d
           ∧ w ≠ "" ∧ allWordChars w = true
           ∧ d ≠ "" ∧ allDigits d = true.
Proof.
  split; [apply isValidGid_parts|]. unfold isValidGid.
  intros (w & d & -> & Hw0 & Hw & Hd0 & Hd).
  assert (Hp : dropPrefix "gid://shopify/" ("gid://shopify/" +:+ w +:+ "/" +:+ d)
               = Some (w +:+ "/" +:+ d)) by (by apply dropPrefix_Some).
  rewrite Hp. apply wordSlashDigits_iff. exists w, d.
  split; [done|]. split; [by right|]. split; [done|].
  unfold digitsToEnd. by rewrite bool_decide_eq_false_2, Hd.
Qed.

Lemma allDigits_slash (x d : string) : allDigits (x +:+ "/" +:+ d) = false.
Proof.
  induction x as [|c x IH].
  - done.
  - rewrite app_cons. simpl. rewrite IH. apply andb_false_r.
Qed.

Lemma digitsToEnd_slash (x d : string) : digitsToEnd (x +:+ "/" +:+ d) = false.
Proof. unfold digitsToEnd. rewrite allDigits_slash. apply andb_false_r. Qed.

Lemma extractNumericId_suffix before d :
  d ≠ "" → allDigits d = true →
  extractNumericId (before +:+ "/" +:+ d) = Some d.
Proof.
  intros Hne Hd. induction before as [|c before IH].
  - rewrite app_empty, app_slash. simpl. unfold digitsToEnd.
    by rewrite bool_decide_eq_false_2, Hd.
  - rewrite app_cons. simpl. rewrite digitsToEnd_slash, andb_false_r. exact IH.
Qed.

(** X20. [extractNumericId] answers [d] exactly when the string ends with a
    slash followed by the non-empty run of digits [d]; on any other string
    (the empty one included) it answers [null]. *)
Theorem extractNumericId_iff gid d :
  extractNumericId gid = Some d
  ↔ ∃ before, gid = before +:+ "/" +:+ d ∧ d ≠ "" ∧ allDigits d = true.
Proof.
  split.
  - induction gid as [|c gid IH]; simpl; [done|].
    destruct (bool_decide (c = "/"%char) && digitsToEnd gid) eqn:Hhere.
    + intros [= ->]. apply andb_prop in Hhere as [->%bool_decide_eq_true Hd].
      exists "". split; [done|]. unfold digitsToEnd in Hd.
      apply andb_prop in Hd as [Hne Hd].
      by apply negb_true_iff, bool_decide_eq_false in Hne.
    + intros (before & -> & Hd)%IH. exists (String c before). by rewrite app_cons.
  - intros (before & -> & Hne & Hd). by apply extractNumericId_suffix.
Qed.

Lemma app_assoc' (a b c : string) : (a +:+ b) +:+ c = a +:+ (b +:+ c).
Proof. induction a as [|x a IH]; [done|]. by rewrite !app_cons, IH. Qed.

(** X21. On every string [isValidGid] accepts, [extractNumericId] finds
    the numeric id: the digits after the last slash. *)
Theorem isValidGid_extractNumericId gid :
  isValidGid gid = true →
  ∃ w d, gid = "gid://shopify/" +:+ w +:+ "/" +:+ d
         ∧ extractNumericId gid = Some d
         ∧ d ≠ "" ∧ allDigits d = true.
Proof.
  intros (w & d & -> & _ & _ & Hne & Hd)%isValidGid_parts.
  exists w, d. split; [done|]. split; [|done].
  rewrite <-app_assoc'. by apply extractNumericId_suffix.
Qed.

End Identifiers.

Lemma isValidGid_extractNumericId_witness :
  Gid.isValidGid "gid://shopify/Product/100" = true
  ∧ Gid.extractNumericId "gid://shopify/Product/100" = Some "100".
Proof.
  split; [reflexivity|].
  destruct (isValidGid_extractNumericId "gid://shopify/Product/100" eq_refl)
    as (w & d & _ & Hd & _).
  rewrite Hd. vm_compute in Hd. symmetry. exact Hd.
Defined.

(** ** The inventory bound against the stock *)

Section StockBound.
Import CheckInventory Vocabulary.

Variable nodes : option (list (option InventoryNode.t)).



End StockBound.



(** ** The price breakdown *)

Section Breakdown.
Import CalculatePrice Notions.

Variable parseFloat : string → Qc.

Lemma sumQc_snoc amounts x : sumQc (amounts ++ [x]) = (sumQc amounts + x)%Qc.
Proof.
  unfold sumQc. induction amounts as [|a amounts IH]; simpl.
  - ring.
  - rewrite IH. ring.
Qed.

Lemma pushPrice_balanced currencyCode acc productId variantId quantity variant :
  balanced parseFloat acc →
  balanced parseFloat (pushPrice parseFloat currencyCode acc productId variantId quantity variant).
Proof.
  intros [Hsum Hall]. unfold balanced, pushPrice. cbn [fst snd]. split.
  - rewrite fmap_app, list_fmap_singleton, sumQc_snoc, <-Hsum. done.
  - apply Forall_app. split; [done|]. by constructor.
Qed.

Lemma priceLines_balanced definition selectedComponents :
  balanced parseFloat (priceLines parseFloat definition selectedComponents).
Proof.
  assert (Hinit : balanced parseFloat ([], 0%Qc)) by (split; [done|constructor]).
  assert (Hsel : ∀ selections acc, balanced parseFloat acc →
            balanced parseFloat (foldl (selectionStep parseFloat definition
                               (currencyCodeOf definition)) acc selections)).
  { induction selections as [|s rest IH]; intros acc Hacc; [done|].
    simpl. apply IH. unfold selectionStep.
    destruct (find _ (BundleDefinition.components definition)) as [c|]; [|done].
    destruct (find _ (BundleComponent.variants c)) as [v|]; [|done].
    by apply pushPrice_balanced. }
  assert (Hdef : ∀ components acc, balanced parseFloat acc →
            balanced parseFloat (foldl (defaultStep parseFloat (currencyCodeOf definition))
                        acc components)).
  { induction components as [|c rest IH]; intros acc Hacc; [done|].
    simpl. apply IH. unfold defaultStep.
    destruct (match _ with Some v => Some v | None => _ end) as [v|]; [|done].
    by apply pushPrice_balanced. }
  unfold priceLines. destruct selectedComponents as [[|s rest]|]; auto.
Qed.

(** X23. The breakdown of a local price calculation adds up: the original
    price, before formatting, is the sum over the reported component lines
    of unit price times quantity (a selection the loop skips contributes
    to neither), every line total is the formatted amount of its own line,
    and the reported original price is that sum formatted. *)
Theorem price_breakdown_sums definition selectedComponents :
  let a := amountsOf parseFloat definition selectedComponents in
  let r := calculatePriceFromDefinition parseFloat definition selectedComponents in
  originalPriceTotal a
  = sumQc (lineAmount parseFloat <$> BundlePriceResult.componentPrices r)
  ∧ Forall (λ line, Money.amount (ComponentPrice.lineTotal line)
                    = Js.toFixed2 (lineAmount parseFloat line))
      (BundlePriceResult.componentPrices r)
  ∧ Money.amount (BundlePriceResult.originalPrice r)
    = Js.toFixed2 (sumQc (lineAmount parseFloat <$> BundlePriceResult.componentPrices r)).
Proof.
  intros a r. subst a r.
  destruct (priceLines_balanced definition selectedComponents) as [Hsum Hall].
  unfold calculatePriceFromDefinition, amountsOf. simpl.
  split; [done|]. split; [done|]. by rewrite <-Hsum.
Qed.

End Breakdown.

(** ** What [parseStorefrontResponse] hands to the builder and to the
    price calculation *)

Section ResolvedBundle.
Import ResolveBundle BuildCartMutation Notions.

Variable parseFloat : string → Qc.

Lemma bundleVariantOf_None product :
  bundleVariantOf product = None ↔ Forall plain (StorefrontProduct.variants product).
Proof.
  unfold bundleVariantOf.
  induction (StorefrontProduct.variants product) as [|v vs IH]; simpl.
  - split; [constructor|done].
  - unfold plain at 1.
    destruct (StorefrontVariant.bundleComponents v) as [[|n ns]|] eqn:Hv; simpl.
    + rewrite IH. split; [intros; constructor; [unfold plain; auto|done]|].
      by inversion 1.
    + split; [done|]. inversion 1 as [|? ? [Hp|Hp]]; unfold plain in *; congruence.
    + rewrite IH. split; [intros; constructor; [unfold plain; auto|done]|].
      by inversion 1.
Qed.

Lemma bundleVariantOf_Some product bundleVariant :
  bundleVariantOf product = Some bundleVariant →
  ∃ n ns, StorefrontVariant.bundleComponents bundleVariant = Some (n :: ns).
Proof.
  unfold bundleVariantOf. intros Hf. apply find_some in Hf as [_ Hf].
  destruct (StorefrontVariant.bundleComponents bundleVariant) as [[|n ns]|];
    try done. by exists n, ns.
Qed.

Lemma parse_inv product definition :
  parseStorefrontResponse parseFloat product = Some (Some definition) →
  ∃ bundleVariant n ns s,
    bundleVariantOf product = Some bundleVariant
    ∧ StorefrontVariant.bundleComponents bundleVariant = Some (n :: ns)
    ∧ savingsOf parseFloat bundleVariant (componentOf <$> n :: ns) = Some s
    ∧ definition = BundleDefinition.mk
            (StorefrontProduct.id product)
            (StorefrontProduct.title product)
            (StorefrontProduct.handle product)
            (StorefrontProduct.description product)
            fixed
            (componentOf <$> n :: ns)
            (BundlePricing.mk
               (discountTypeOf (savingsPercentage s))
               (Some (if decide (discountTypeOf (savingsPercentage s) = percentage)
                      then savingsPercentage s else savingsAmount s))
               (Some (Money.currencyCode (StorefrontVariant.price bundleVariant)))
               (Some (Money.mk (Js.toFixed2 (originalPriceAmount s))
                        (Money.currencyCode (StorefrontVariant.price bundleVariant))))
               (Some (StorefrontVariant.price bundleVariant))
               (Some (Money.mk (Js.toFixed2 (savingsAmount s))
                        (Money.currencyCode (StorefrontVariant.price bundleVariant))))
               (Some (savingsPercentage s)))
            None None
            (StorefrontProduct.featuredImage product)
            (StorefrontProduct.availableForSale product)
            (Some (StorefrontVariant.id bundleVariant)).
Proof.
  unfold parseStorefrontResponse. intros Hp.
  destruct (bundleVariantOf product) as [bundleVariant|] eqn:Hbv; [|done].
  destruct (bundleVariantOf_Some _ _ Hbv) as (n & ns & Hnodes).
  rewrite Hnodes in Hp.
  destruct (savingsOf parseFloat bundleVariant (componentOf <$> n :: ns))
    as [s|] eqn:Hs; [|done].
  simpl in Hp. injection Hp as <-. by exists bundleVariant, n, ns, s.
Qed.

(** X24. [parseStorefrontResponse] answers [null] exactly for a product
    none of whose variants carries bundle components.  Otherwise the
    definition is made of the first variant that carries some: it has the
    product's id, is always of type [fixed], records that variant's id and
    price as the bundle's, and has one component per bundle component, in
    order, each with the raw component's product id and quantity and with
    the raw variant as its only variant and as its default. *)
Theorem parseStorefrontResponse_bundle product :
  (parseStorefrontResponse parseFloat product = Some None
   ↔ Forall plain (StorefrontProduct.variants product))
  ∧ (∀ definition,
       parseStorefrontResponse parseFloat product = Some (Some definition) →
       ∃ before bundleVariant after nodes,
         StorefrontProduct.variants product = before ++ bundleVariant :: after
         ∧ Forall plain before
         ∧ StorefrontVariant.bundleComponents bundleVariant = Some nodes
         ∧ nodes ≠ []
         ∧ BundleDefinition.id definition = StorefrontProduct.id product
         ∧ BundleDefinition.bundleType definition = fixed
         ∧ BundleDefinition.variantId definition
           = Some (StorefrontVariant.id bundleVariant)
         ∧ BundlePricing.bundlePrice (BundleDefinition.pricing definition)
           = Some (StorefrontVariant.price bundleVariant)
         ∧ Forall2 (λ bc c,
               BundleComponent.productId c
               = StorefrontComponentProduct.id (StorefrontBundleComponent.product bc)
               ∧ BundleComponent.quantity c = StorefrontBundleComponent.quantity bc
               ∧ BundleComponent.variants c = [StorefrontBundleComponent.variant bc]
               ∧ BundleComponent.defaultVariantId c
                 = Some (BundleComponentVariant.id (StorefrontBundleComponent.variant bc)))
             nodes (BundleDefinition.components definition)).
Proof.
  split.
  - rewrite <-bundleVariantOf_None. unfold parseStorefrontResponse.
    destruct (bundleVariantOf product) as [bundleVariant|] eqn:Hbv; [|done].
    destruct (bundleVariantOf_Some _ _ Hbv) as (n & ns & ->).
    split; [|done].
    by destruct (savingsOf parseFloat bundleVariant (componentOf <$> n :: ns)).
  - intros definition (bundleVariant & n & ns & s & Hbv & Hnodes & _ & ->)%parse_inv.
    unfold bundleVariantOf in Hbv.
    assert (Hsplit : ∃ before after,
              StorefrontProduct.variants product = before ++ bundleVariant :: after
              ∧ Forall plain before).
    { revert Hbv. induction (StorefrontProduct.variants product) as [|v vs IH];
        [done|]. simpl.
      destruct (StorefrontVariant.bundleComponents v) as [[|m ms]|] eqn:Hv; simpl.
      - intros (before & after & -> & Hb)%IH. exists (v :: before), after.
        split; [done|]. constructor; [by right|done].
      - intros [= ->]. by exists [], vs.
      - intros (before & after & -> & Hb)%IH. exists (v :: before), after.
        split; [done|]. constructor; [by left|done]. }
    destruct Hsplit as (before & after & Hv & Hb).
    exists before, bundleVariant, after, (n :: ns). cbn.
    repeat split; try done.
    constructor.
    + by destruct n as [p [] q].
    + clear. induction ns as [|m ms IH]; constructor; [|done].
      by destruct m as [p [] q].
Qed.

Lemma componentsToAdd_componentOf definition nodes selected :
  BundleDefinition.components definition = componentOf <$> nodes →
  selected = None ∨ selected = Some [] →
  componentsToAdd definition selected
  = Some ((λ bc, BundleSelection.mk
                   (StorefrontComponentProduct.id (StorefrontBundleComponent.product bc))
                   (BundleComponentVariant.id (StorefrontBundleComponent.variant bc))
                   (StorefrontBundleComponent.quantity bc)) <$> nodes).
Proof.
  intros Hc Hsel.
  assert (Hm : ∀ nodes, mapM (λ c, variantId ← defaultVariantIdOf c;
                 Some (BundleSelection.mk (BundleComponent.productId c)
                         variantId (BundleComponent.quantity c)))
           (componentOf <$> nodes)
     = Some ((λ bc, BundleSelection.mk
                   (StorefrontComponentProduct.id (StorefrontBundleComponent.product bc))
                   (BundleComponentVariant.id (StorefrontBundleComponent.variant bc))
                   (StorefrontBundleComponent.quantity bc)) <$> nodes)).
  { clear. induction nodes as [|bc nodes IH]; [done|].
    rewrite !fmap_cons. cbn [mapM]. rewrite IH. done. }
  unfold componentsToAdd. rewrite Hc. by destruct Hsel as [-> | ->].
Qed.

(** X25. A definition that [parseStorefrontResponse] made can always be
    added without a selection: [buildBundleCartLines] never throws on it
    and emits one line per bundle component of the bundle variant, in
    order, for the component's variant, with the component's quantity
    times the requested one and tagged with the product's id; and
    [validateBundleSelection] accepts any selection for it. *)
Theorem resolved_bundle_lines product definition input :
  parseStorefrontResponse parseFloat product = Some (Some definition) →
  AddBundleInput.selectedComponents input = None
  ∨ AddBundleInput.selectedComponents input = Some [] →
  ∃ bundleVariant nodes,
    bundleVariantOf product = Some bundleVariant
    ∧ StorefrontVariant.bundleComponents bundleVariant = Some nodes
    ∧ buildBundleCartLines definition input
      = Some (imap (λ index bc,
                CartLineInput.mk
                  (BundleComponentVariant.id (StorefrontBundleComponent.variant bc))
                  (StorefrontBundleComponent.quantity bc
                   * default 1 (AddBundleInput.quantity input))
                  (buildBundleAttributes (StorefrontProduct.id product) index
                     (length nodes)
                     (StorefrontComponentProduct.id
                        (StorefrontBundleComponent.product bc))
                   ++ customAttributesOf input))
              nodes)
    ∧ ∀ selections, Validation.validateBundleSelection definition selections
                    = Validation.ok.
Proof.
  intros (bundleVariant & n & ns & s & Hbv & Hnodes & _ & ->)%parse_inv Hsel.
  exists bundleVariant, (n :: ns). split; [done|]. split; [done|]. split; [|done].
  unfold buildBundleCartLines.
  rewrite (componentsToAdd_componentOf _ (n :: ns)); [|done|done].
  cbn [mbind option_bind BundleDefinition.id]. f_equal.
  rewrite length_fmap, imap_fmap. done.
Qed.

End ResolvedBundle.

Lemma resolved_bundle_lines_witness :
  ∃ definition lines,
    ResolveBundle.parseStorefrontResponse Fixtures.parseFloat
      (Fixtures.storefrontProduct "30.00") = Some (Some definition)
    ∧ BuildCartMutation.buildBundleCartLines definition
        (Fixtures.input None (Some 2) None) = Some lines
    ∧ CartLineInput.merchandiseId <$> lines = ["v1"; "v2"]
    ∧ CartLineInput.quantity <$> lines = [4; 2].
Proof.
  destruct (parseStorefrontResponse_returns Fixtures.parseFloat
              (Fixtures.storefrontProduct "30.00")) as [[definition|] Hparse];
    [|vm_compute in Hparse; discriminate].
  destruct (resolved_bundle_lines Fixtures.parseFloat _ _
              (Fixtures.input None (Some 2) None) Hparse (or_introl eq_refl))
    as (bundleVariant & nodes & Hbv & Hnodes & Hlines & _).
  vm_compute in Hbv. injection Hbv as <-.
  vm_compute in Hnodes. injection Hnodes as <-.
  eexists definition, _. split; [exact Hparse|]. split; [exact Hlines|].
  split; reflexivity.
Defined.

Section ResolvedPrice.
Import ResolveBundle.

Variable parseFloat : string → Qc.






End ResolvedPrice.



(** ** The savings percentage *)

Section Discounts.
Import CalculatePrice.

Variable parseFloat : string → Qc.






End Discounts.

